(** * Huebner Cobolt 06-MLD laser driver: a shallow embedding

    The driver (src/huebner_cobolt06mld.py) is a single Python class whose
    methods translate typed calls into ASCII commands for a VISA instrument
    and parse the replies.  This development embeds

    - the Python values the class works with: [int] as [Z], [float] as an
      IEEE-754 binary64 value ([spec_float] at precision 53, emax 1024),
      [str] as [string] (VISA replies are decoded as ASCII);
    - the builtins the class calls: [int(str)], [float(str)], the
      f-string conversions [{x}] on an int and [{x:.Nf}] on a float, and
      the comparisons [>=], [<=], [==];
    - the instrument object of pyvisa as an abstract session with a
      [query] and a [write] operation, wrapped with a ghost log of the
      commands that reached it;
    - every method of the class, in self-passing style.

    Arguments range over the values of their annotated types: a status
    or modulation flag is an [int], a power or a current a [float] (an int
    literal such as [125] stands for the float [125.0]).  *)

From Stdlib Require Import ZArith NArith PArith Lia Bool List.
From Stdlib Require Import Ascii String DecimalString.
From Stdlib Require Import Floats.SpecFloat.
From Stdlib Require DecimalN.
Import ListNotations.

Local Open Scope string_scope.
Local Open Scope bool_scope.

(** ** Python numbers *)

Module PyNum.

(** Python's [float] is the platform double. *)
Definition prec : Z := 53.
Definition emax : Z := 1024.

Definition pyfloat : Type := spec_float.

Definition is_binary64 (x : pyfloat) : bool := valid_binary prec emax x.

(** The int literal [0] of the range checks, as the float it is compared
    as (the comparison of a float with an int is exact in Python, and [0]
    is representable). *)
Definition zero : pyfloat := S754_zero false.

(** [a <= b] and [a >= b] on floats: false as soon as one side is NaN. *)
Definition float_le (a b : pyfloat) : bool := SFleb a b.

Definition float_ge (a b : pyfloat) : bool :=
  match SFcompare a b with
  | Some Gt | Some Eq => true
  | _ => false
  end.

Definition float_lt (a b : pyfloat) : bool := SFltb a b.

Definition is_nan (a : pyfloat) : bool :=
  match a with S754_nan => true | _ => false end.

(** *** [str(int)], the conversion behind [f"{status}"] *)

Definition str_of_N (n : N) : string := NilZero.string_of_uint (N.to_uint n).

Definition str_of_int (z : Z) : string := NilZero.string_of_int (Z.to_int z).

(** *** [format(x, ".Nf")] on a float

    CPython prints the decimal expansion of the exact binary value,
    correctly rounded to [N] places with ties to even. *)

(** Nearest integer (ties to even) to [m * 2^e * 10^places]. *)
Definition scaled_nearest_even (m : positive) (e : Z) (places : nat) : Z :=
  let n := (Zpos m * 10 ^ Z.of_nat places)%Z in
  if (0 <=? e)%Z then (n * 2 ^ e)%Z
  else
    let d := (2 ^ (- e))%Z in
    let q := (n / d)%Z in
    let r := (n mod d)%Z in
    match (2 * r ?= d)%Z with
    | Lt => q
    | Gt => (q + 1)%Z
    | Eq => if Z.even q then q else (q + 1)%Z
    end.

Fixpoint zeros (k : nat) : string :=
  match k with
  | O => EmptyString
  | S k' => String "0" (zeros k')
  end.

(** The decimal digits of [n], left-padded with zeros to [width]. *)
Definition zero_padded (width : nat) (n : N) : string :=
  let s := str_of_N n in
  zeros (width - String.length s) ++ s.

(** The unsigned text [iii.fff] of a scaled integer. *)
Definition fixed_digits (places : nat) (scaled : Z) : string :=
  let unit := (10 ^ Z.of_nat places)%Z in
  let ip := str_of_N (Z.to_N (scaled / unit)) in
  match places with
  | O => ip
  | _ => ip ++ "." ++ zero_padded places (Z.to_N (scaled mod unit))
  end.

Definition sign_text (neg : bool) : string := if neg then "-" else "".

Definition format_f (places : nat) (x : pyfloat) : string :=
  match x with
  | S754_nan => "nan"
  | S754_infinity s => sign_text s ++ "inf"
  | S754_zero s => sign_text s ++ fixed_digits places 0
  | S754_finite s m e =>
      sign_text s ++ fixed_digits places (scaled_nearest_even m e places)
  end.

(** *** [int(str)] and [float(str)]

    The reply of a query is an ASCII [str].  Both builtins skip the
    whitespace of the C locale at either end, accept one sign, and allow
    single underscores between digits. *)

Definition code (c : ascii) : N := N_of_ascii c.

Definition is_space (c : ascii) : bool :=
  ((9 <=? code c) && (code c <=? 13) || (code c =? 32))%N.

Definition is_digit (c : ascii) : bool :=
  ((48 <=? code c) && (code c <=? 57))%N.

Definition is_underscore (c : ascii) : bool := (code c =? 95)%N.

Definition digit_value (c : ascii) : N := (code c - 48)%N.

(** ASCII lower-casing, for the case-insensitive [inf] and [nan]. *)
Definition lower (c : ascii) : ascii :=
  if ((65 <=? code c) && (code c <=? 90))%N
  then ascii_of_N (code c + 32) else c.

Fixpoint lstrip (s : string) : string :=
  match s with
  | String c s' => if is_space c then lstrip s' else s
  | EmptyString => s
  end.

Fixpoint all_space (s : string) : bool :=
  match s with
  | String c s' => is_space c && all_space s'
  | EmptyString => true
  end.

(** Longest prefix whose characters satisfy [p], and what follows it. *)
Fixpoint span (p : ascii -> bool) (s : string) : string * string :=
  match s with
  | String c s' =>
      if p c then let '(a, b) := span p s' in (String c a, b)
      else (EmptyString, s)
  | EmptyString => (EmptyString, EmptyString)
  end.

(** Value of a run of digits, read left to right from [acc]; underscores
    are skipped. *)
Fixpoint digits_value (acc : N) (s : string) : N :=
  match s with
  | String c s' =>
      if is_digit c then digits_value (10 * acc + digit_value c)%N s'
      else digits_value acc s'
  | EmptyString => acc
  end.

Fixpoint count_digits (s : string) : nat :=
  match s with
  | String c s' => (if is_digit c then 1 else 0) + count_digits s'
  | EmptyString => 0
  end.

(** A run over digits and underscores is well formed when it is not
    empty, neither starts nor ends with an underscore, and has no two
    underscores in a row. *)
Fixpoint underscores_ok (prev_digit : bool) (s : string) : bool :=
  match s with
  | String c s' =>
      if is_underscore c then prev_digit && underscores_ok false s'
      else underscores_ok true s'
  | EmptyString => prev_digit
  end.

Definition take_sign (s : string) : bool * string :=
  match s with
  | String "-"%char r => (true, r)
  | String "+"%char r => (false, r)
  | _ => (false, s)
  end.

(** [sys.get_int_max_str_digits()], at its default. *)
Definition int_max_str_digits : nat := 4300.

(** [int(s)]: [None] stands for the [ValueError] Python raises. *)
Definition py_int (s : string) : option Z :=
  let '(neg, body) := take_sign (lstrip s) in
  let '(run, rest) := span (fun c => is_digit c || is_underscore c) body in
  if underscores_ok false run
     && (count_digits run <=? int_max_str_digits)%nat
     && all_space rest
  then
    let n := Z.of_N (digits_value 0 run) in
    Some (if neg then (- n)%Z else n)
  else None.

(** [float(s)] first drops underscores, each of which must stand between
    two digits. *)
Fixpoint drop_underscores (prev : ascii) (s : string) : option string :=
  match s with
  | String c s' =>
      if is_underscore c then
        if is_digit prev then drop_underscores c s' else None
      else if is_underscore prev && negb (is_digit c) then None
      else option_map (String c) (drop_underscores c s')
  | EmptyString => if is_underscore prev then None else Some EmptyString
  end.

(** [prefix_ci w s]: what follows [w] when [s] starts with [w], letter
    case ignored ([w] in lower case). *)
Fixpoint prefix_ci (w s : string) : option string :=
  match w, s with
  | EmptyString, _ => Some s
  | String a w', String c s' =>
      if Ascii.eqb a (lower c) then prefix_ci w' s' else None
  | String _ _, EmptyString => None
  end.

(** The binary64 nearest to [m * 10^e], ties to even; overflow gives an
    infinity and underflow a zero, without error. *)
Definition float_of_decimal (neg : bool) (m : N) (e : Z) : pyfloat :=
  match m with
  | N0 => S754_zero neg
  | Npos p =>
      if (0 <=? e)%Z
      then binary_round prec emax neg (p * Z.to_pos (10 ^ e)) 0
      else SFdiv prec emax (S754_finite neg p 0)
                           (S754_finite false (Z.to_pos (10 ^ (- e))) 0)
  end.

(** Optional exponent part [e[+-]ddd]; when it is not well formed the
    number ends before the [e]. *)
Definition take_exponent (s : string) : Z * string :=
  match s with
  | String c r =>
      if Ascii.eqb (lower c) "e" then
        let '(eneg, r1) := take_sign r in
        let '(ds, r2) := span is_digit r1 in
        match ds with
        | EmptyString => (0%Z, s)
        | _ => let x := Z.of_N (digits_value 0 ds) in
               ((if eneg then - x else x)%Z, r2)
        end
      else (0%Z, s)
  | EmptyString => (0%Z, s)
  end.

(** A decimal numeral without sign: its value as [m * 10^e], and the
    rest of the text. *)
Definition take_decimal (s : string) : option (N * Z * string) :=
  let '(ip, r1) := span is_digit s in
  let '(fp, r2) :=
    match r1 with
    | String "."%char r => span is_digit r
    | _ => (EmptyString, r1)
    end in
  match ip ++ fp with
  | EmptyString => None
  | ds =>
      let '(x, r3) := take_exponent r2 in
      Some (digits_value 0 ds, (x - Z.of_nat (String.length fp))%Z, r3)
  end.

Definition take_float (s : string) : option (pyfloat * string) :=
  let '(neg, body) := take_sign s in
  match take_decimal body with
  | Some (m, e, rest) => Some (float_of_decimal neg m e, rest)
  | None =>
      match prefix_ci "inf" body with
      | Some r =>
          match prefix_ci "inity" r with
          | Some r' => Some (S754_infinity neg, r')
          | None => Some (S754_infinity neg, r)
          end
      | None =>
          match prefix_ci "nan" body with
          | Some r => Some (S754_nan, r)
          | None => None
          end
      end
  end.

(** [float(s)]: [None] stands for the [ValueError] Python raises. *)
Definition py_float (s : string) : option pyfloat :=
  match drop_underscores Ascii.zero s with
  | Some t =>
      match take_float (lstrip t) with
      | Some (x, rest) => if all_space rest then Some x else None
      | None => None
      end
  | None => None
  end.

(** [float(n)]: the float an int literal such as [250] is passed as
    (exact up to [2^53]). *)
Definition float_of_int (n : Z) : pyfloat := binary_normalize prec emax n 0 false.

End PyNum.

(** ** The VISA layer *)

Module Visa.

(** What a getter parses its reply as. *)
Inductive pytype := TInt | TFloat | TStr.

(** The exceptions that can leave a method of the driver: the
    [ValueError] of [int(...)] or [float(...)] on a reply, and whatever
    the VISA layer raises (by status code). *)
Inductive pyerr :=
| ValueError (target : pytype) (literal : string)
| VisaIOError (status : Z).

(** A command as it reaches the instrument. *)
Inductive command :=
| Query (cmd : string)
| Write (cmd : string).

(** The read termination the class asks for: carriage return, line feed. *)
Definition crlf : string := String "013" (String "010" "").

(** What a method returns to Python. *)
Inductive pyval :=
| PNone
| PInt (z : Z)
| PFloat (x : PyNum.pyfloat)
| PStr (s : string).

End Visa.

Export Visa.

(** The part of pyvisa the class uses: a resource manager that opens a
    resource by name, and an opened instrument that takes a [query]
    (write, then read one line) or a [write].  [session] is the state of
    the instrument as the VISA layer sees it; every operation may raise. *)
Class Transport : Type := {
  rm : Type;
  session : Type;
  ResourceManager : pyerr + rm;
  open_resource : rm -> string -> string -> pyerr + session;
  visa_query : string -> session -> (pyerr + string) * session;
  visa_write : string -> session -> (pyerr + unit) * session
}.

(** ** The driver *)

Section Driver.

Import PyNum.

Context {T : Transport}.

(** The object behind [self.instrument]: the VISA session, and a ghost
    log of every command passed to it, oldest first. *)
Record instrument : Type := Instrument {
  session_of : session;
  sent : list command
}.

(** The attributes [__init__] stores on [self].  [self.instrument] is a
    reference that never changes after construction; the object it points
    to is the state that the methods thread. *)
Record driver : Type := Driver {
  name : string;
  address : string;
  wavelength : pyfloat;
  max_power : pyfloat;
  max_current : pyfloat
}.

(** Methods run against the instrument and either return or raise. *)
Definition io (A : Type) : Type := instrument -> (pyerr + A) * instrument.

Definition ret {A : Type} (a : A) : io A := fun i => (inr a, i).

Definition raise {A : Type} (e : pyerr) : io A := fun i => (inl e, i).

Definition bind {A B : Type} (m : io A) (k : A -> io B) : io B :=
  fun i =>
    match m i with
    | (inr a, i') => k a i'
    | (inl e, i') => (inl e, i')
    end.

Notation "x <- m ;; k" := (bind m (fun x => k))
  (at level 61, m at next level, right associativity).

(** [self.instrument.query(cmd)] and [self.instrument.write(cmd)]. *)
Definition query (cmd : string) : io string :=
  fun i =>
    let '(r, s) := visa_query cmd (session_of i) in
    (r, Instrument s (sent i ++ [Query cmd])).

Definition write (cmd : string) : io unit :=
  fun i =>
    let '(r, s) := visa_write cmd (session_of i) in
    (r, Instrument s (sent i ++ [Write cmd])).

(** [int(reply)] and [float(reply)], raising on a malformed reply. *)
Definition int (reply : string) : io Z :=
  match py_int reply with
  | Some z => ret z
  | None => raise (ValueError TInt reply)
  end.

Definition float (reply : string) : io pyfloat :=
  match py_float reply with
  | Some x => ret x
  | None => raise (ValueError TFloat reply)
  end.

(** [HuebnerCobolt06mld(name, address, max_power, max_current, wavelength)].
    The attribute assignments cannot fail; when opening the resource
    raises, the exception leaves the constructor call and the half-built
    object is unreachable. *)
Definition init (name address : string) (max_power max_current wavelength : pyfloat)
  : pyerr + (driver * instrument) :=
  let self := Driver name address wavelength max_power max_current in
  match ResourceManager with
  | inl e => inl e
  | inr manager =>
      match open_resource manager address crlf with
      | inl e => inl e
      | inr s => inr (self, Instrument s [])
      end
  end.

Definition get_status (self : driver) : io Z :=
  r <- query "l?" ;; int r.

Definition set_status (self : driver) (status : Z) : io unit :=
  if (status =? 1)%Z || (status =? 0)%Z
  then write ("l" ++ str_of_int status)
  else ret tt.

Definition get_analog_modulation_state (self : driver) : io Z :=
  r <- query "games?" ;; int r.

Definition set_analog_modulation_state (self : driver) (analog_modulation_state : Z) : io unit :=
  if (analog_modulation_state =? 1)%Z || (analog_modulation_state =? 0)%Z
  then write ("sames " ++ str_of_int analog_modulation_state)
  else ret tt.

Definition get_digital_modulation_state (self : driver) : io Z :=
  r <- query "gdmes?" ;; int r.

Definition set_digital_modulation_state (self : driver) (digital_modulation_state : Z) : io unit :=
  if (digital_modulation_state =? 1)%Z || (digital_modulation_state =? 0)%Z
  then write ("sames " ++ str_of_int digital_modulation_state)
  else ret tt.

Definition get_power (self : driver) : io pyfloat :=
  r <- query "p?" ;; float r.

Definition set_power (self : driver) (power : pyfloat) : io unit :=
  if float_ge power zero && float_le power (max_power self)
  then write ("p " ++ format_f 3 power)
  else ret tt.

Definition get_current (self : driver) : io pyfloat :=
  r <- query "glc?" ;; float r.

Definition set_current (self : driver) (current : pyfloat) : io unit :=
  if float_ge current zero && float_le current (max_current self)
  then write ("slc " ++ format_f 2 current)
  else ret tt.

Definition get_operating_mode (self : driver) : io string := query "gom?".

Definition get_interlock_state (self : driver) : io string := query "ilk?".

Definition get_operating_fault (self : driver) : io string := query "f?".

Definition get_serial_number (self : driver) : io Z :=
  r <- query "gsn?" ;; int r.

Definition get_laser_head_operating_hours (self : driver) : io pyfloat :=
  r <- query "hrs?" ;; float r.

Definition laser_on_force_autostart (self : driver) : io unit := write "@cob1".

Definition laser_off (self : driver) : io unit := write "@cob0".

Definition enter_constant_power_mode (self : driver) : io unit := write "cp".

Definition enter_constant_current_mode (self : driver) : io unit := write "ci".

Definition enter_modulation_mode (self : driver) : io unit := write "em".

Definition read_actual_output_power (self : driver) : io pyfloat :=
  r <- query "pa?" ;; float r.

Definition read_actual_laser_current (self : driver) : io pyfloat :=
  r <- query "rlc" ;; float r.

Definition clear_fault (self : driver) : io unit := write "cf".

(** *** The methods as one interface *)

Inductive method :=
| Get_status
| Set_status (status : Z)
| Get_analog_modulation_state
| Set_analog_modulation_state (analog_modulation_state : Z)
| Get_digital_modulation_state
| Set_digital_modulation_state (digital_modulation_state : Z)
| Get_power
| Set_power (power : pyfloat)
| Get_current
| Set_current (current : pyfloat)
| Get_operating_mode
| Get_interlock_state
| Get_operating_fault
| Get_serial_number
| Get_laser_head_operating_hours
| Laser_on_force_autostart
| Laser_off
| Enter_constant_power_mode
| Enter_constant_current_mode
| Enter_modulation_mode
| Read_actual_output_power
| Read_actual_laser_current
| Clear_fault.

Definition returning {A : Type} (wrap : A -> pyval) (m : io A) : io pyval :=
  x <- m ;; ret (wrap x).

Definition none (_ : unit) : pyval := PNone.

Definition call (self : driver) (m : method) : io pyval :=
  match m with
  | Get_status => returning PInt (get_status self)
  | Set_status v => returning none (set_status self v)
  | Get_analog_modulation_state => returning PInt (get_analog_modulation_state self)
  | Set_analog_modulation_state v => returning none (set_analog_modulation_state self v)
  | Get_digital_modulation_state => returning PInt (get_digital_modulation_state self)
  | Set_digital_modulation_state v => returning none (set_digital_modulation_state self v)
  | Get_power => returning PFloat (get_power self)
  | Set_power v => returning none (set_power self v)
  | Get_current => returning PFloat (get_current self)
  | Set_current v => returning none (set_current self v)
  | Get_operating_mode => returning PStr (get_operating_mode self)
  | Get_interlock_state => returning PStr (get_interlock_state self)
  | Get_operating_fault => returning PStr (get_operating_fault self)
  | Get_serial_number => returning PInt (get_serial_number self)
  | Get_laser_head_operating_hours => returning PFloat (get_laser_head_operating_hours self)
  | Laser_on_force_autostart => returning none (laser_on_force_autostart self)
  | Laser_off => returning none (laser_off self)
  | Enter_constant_power_mode => returning none (enter_constant_power_mode self)
  | Enter_constant_current_mode => returning none (enter_constant_current_mode self)
  | Enter_modulation_mode => returning none (enter_modulation_mode self)
  | Read_actual_output_power => returning PFloat (read_actual_output_power self)
  | Read_actual_laser_current => returning PFloat (read_actual_laser_current self)
  | Clear_fault => returning none (clear_fault self)
  end.

(** The same driver with another wavelength. *)
Definition with_wavelength (w : pyfloat) (self : driver) : driver :=
  Driver (name self) (address self) w (max_power self) (max_current self).

(** *** The contract of the specification

    The definitions below follow the words of the specification, not the
    code; the theorems compare the two. *)

(** The twelve getters of the command table. *)
Inductive getter :=
| G_status
| G_analog_modulation_state
| G_digital_modulation_state
| G_power
| G_current
| G_operating_mode
| G_interlock_state
| G_operating_fault
| G_serial_number
| G_laser_head_operating_hours
| G_actual_output_power
| G_actual_laser_current.

Definition getter_method (g : getter) : method :=
  match g with
  | G_status => Get_status
  | G_analog_modulation_state => Get_analog_modulation_state
  | G_digital_modulation_state => Get_digital_modulation_state
  | G_power => Get_power
  | G_current => Get_current
  | G_operating_mode => Get_operating_mode
  | G_interlock_state => Get_interlock_state
  | G_operating_fault => Get_operating_fault
  | G_serial_number => Get_serial_number
  | G_laser_head_operating_hours => Get_laser_head_operating_hours
  | G_actual_output_power => Read_actual_output_power
  | G_actual_laser_current => Read_actual_laser_current
  end.

(** Column "Command sent" of the table. *)
Definition getter_command (g : getter) : string :=
  match g with
  | G_status => "l?"
  | G_analog_modulation_state => "games?"
  | G_digital_modulation_state => "gdmes?"
  | G_power => "p?"
  | G_current => "glc?"
  | G_operating_mode => "gom?"
  | G_interlock_state => "ilk?"
  | G_operating_fault => "f?"
  | G_serial_number => "gsn?"
  | G_laser_head_operating_hours => "hrs?"
  | G_actual_output_power => "pa?"
  | G_actual_laser_current => "rlc"
  end.

(** Column "Reply parsed as" of the table. *)
Definition getter_type (g : getter) : pytype :=
  match g with
  | G_status | G_analog_modulation_state | G_digital_modulation_state
  | G_serial_number => TInt
  | G_power | G_current | G_laser_head_operating_hours
  | G_actual_output_power | G_actual_laser_current => TFloat
  | G_operating_mode | G_interlock_state | G_operating_fault => TStr
  end.

Definition is_numeric (t : pytype) : bool :=
  match t with TStr => false | _ => true end.

(** Plain type coercion of a reply, and nothing else. *)
Definition coerce (t : pytype) (reply : string) : option pyval :=
  match t with
  | TInt => option_map PInt (py_int reply)
  | TFloat => option_map PFloat (py_float reply)
  | TStr => Some (PStr reply)
  end.

(** A text in fixed-point notation with [places] decimals: an optional
    minus sign, at least one digit, a point, and exactly [places]
    digits. *)
Fixpoint all_digits (s : string) : bool :=
  match s with
  | String c s' => is_digit c && all_digits s'
  | EmptyString => true
  end.

Definition fixed_point_text (places : nat) (s : string) : Prop :=
  exists (neg : bool) (ip fp : string),
    s = sign_text neg ++ ip ++ "." ++ fp /\
    ip <> "" /\ all_digits ip = true /\
    all_digits fp = true /\ String.length fp = places.

Definition is_finite (x : pyfloat) : bool :=
  match x with
  | S754_zero _ | S754_finite _ _ _ => true
  | _ => false
  end.

(** [lo <= v <= hi], and its failure: below, above, or not comparable. *)
Definition in_range (lo hi v : pyfloat) : bool := SFleb lo v && SFleb v hi.

Definition outside (lo hi v : pyfloat) : Prop :=
  float_lt v lo = true \/ float_lt hi v = true \/
  is_nan v = true \/ is_nan hi = true.

(** The in-range value nearest to [v]. *)
Definition clamp (lo hi v : pyfloat) : pyfloat :=
  if float_lt v lo then lo else if float_lt hi v then hi else v.

(** A [set_power] and a [set_current] that clamp before transmission, as
    the design rationale of the specification words it. *)
Definition set_power_clamping (self : driver) (power : pyfloat) : io unit :=
  write ("p " ++ format_f 3 (clamp zero (max_power self) power)).

Definition set_current_clamping (self : driver) (current : pyfloat) : io unit :=
  write ("slc " ++ format_f 2 (clamp zero (max_current self) current)).

End Driver.

(** ** A bench instrument

    A scripted instrument used to run the driver on concrete inputs: it
    answers the queries of the command set with fixed replies, accepts
    every write, and counts the commands it has seen.  Only the serial
    port [ASRL3] exists. *)

Module Bench.

Definition reply_to (cmd : string) : string :=
  if String.eqb cmd "l?" then "1"
  else if String.eqb cmd "p?" then "0.030"
  else if String.eqb cmd "gsn?" then "no serial"
  else if String.eqb cmd "hrs?" then "12.5 h"
  else "OK".

Definition transport : Transport := {|
  rm := unit;
  session := nat;
  ResourceManager := inr tt;
  open_resource := fun _ resource_name read_termination =>
    if String.eqb resource_name "ASRL3" then inr 0
    else inl (VisaIOError (-1073807343));
  visa_query := fun cmd s => (inr (reply_to cmd), S s);
  visa_write := fun cmd s => (inr tt, S s)
|}.

(** The floats [0.03], [0.08], [1.0], [-1.0], [125.0], [250.0], [300.0]
    and [514.0]. *)
Definition f0_03 : PyNum.pyfloat := S754_finite false 0x1eb851eb851eb8 (-58).
Definition f0_08 : PyNum.pyfloat := S754_finite false 0x147ae147ae147b (-56).
Definition f1 : PyNum.pyfloat := S754_finite false 0x10000000000000 (-52).
Definition minus_f1 : PyNum.pyfloat := S754_finite true 0x10000000000000 (-52).
Definition f125 : PyNum.pyfloat := S754_finite false 0x1f400000000000 (-46).
Definition f250 : PyNum.pyfloat := S754_finite false 0x1f400000000000 (-45).
Definition f300 : PyNum.pyfloat := S754_finite false 0x12c00000000000 (-44).
Definition f514 : PyNum.pyfloat := S754_finite false 0x10100000000000 (-43).

(** The laser of the script under [if __name__ == "__main__"]. *)
Definition laser : driver := Driver "laser" "ASRL3" f514 f0_08 f250.

(** Its instrument just after construction. *)
Definition fresh : instrument (T := transport) := @Instrument transport 0%nat [].

(** The calls of that script after construction ([time.sleep] does not
    reach the instrument). *)
Definition main_script (self : driver) : io (T := transport) unit :=
  bind (enter_constant_power_mode self) (fun _ =>
  bind (set_status self 1) (fun _ =>
  bind (set_power self f0_03) (fun _ =>
  set_status self 0))).

End Bench.

(** ** Callers and the remaining methods *)

Section Callers.

Import PyNum.

Context {T : Transport}.

(** The calls under [if __name__ == "__main__"], in order; an exception
    ends the run.  [time.sleep(2)] does not reach the instrument. *)
Definition script (laser : driver) : io unit :=
  bind (enter_constant_power_mode laser) (fun _ =>
  bind (set_status laser 1) (fun _ =>
  bind (set_power laser Bench.f0_03) (fun _ =>
  set_status laser 0))).

(** The module run as a script: what it raises, if anything, and the
    commands that reached the instrument. *)
Definition main : (pyerr + unit) * list command :=
  match init "laser" "ASRL3" Bench.f0_08 (float_of_int 250) (float_of_int 514) with
  | inl e => (inl e, [])
  | inr (laser, i) => let '(r, i') := script laser i in (r, sent i')
  end.

(** A client that makes the calls [ms] one after the other on the same
    driver and collects what they return; the first exception ends the
    run. *)
Fixpoint calls (self : driver) (ms : list method) : io (list pyval) :=
  match ms with
  | [] => ret []
  | m :: ms' =>
      bind (call self m) (fun v =>
      bind (calls self ms') (fun vs => ret (v :: vs)))
  end.

(** [self.set_status(v)] followed by [self.get_status()]. *)
Definition set_then_get_status (self : driver) (v : Z) : io Z :=
  bind (set_status self v) (fun _ => get_status self).

(** The six methods that take no argument and return nothing. *)
Inductive action :=
| A_laser_on_force_autostart
| A_laser_off
| A_enter_constant_power_mode
| A_enter_constant_current_mode
| A_enter_modulation_mode
| A_clear_fault.

Definition action_method (a : action) : method :=
  match a with
  | A_laser_on_force_autostart => Laser_on_force_autostart
  | A_laser_off => Laser_off
  | A_enter_constant_power_mode => Enter_constant_power_mode
  | A_enter_constant_current_mode => Enter_constant_current_mode
  | A_enter_modulation_mode => Enter_modulation_mode
  | A_clear_fault => Clear_fault
  end.

(** The command each of them is expected to send. *)
Definition action_command (a : action) : string :=
  match a with
  | A_laser_on_force_autostart => "@cob1"
  | A_laser_off => "@cob0"
  | A_enter_constant_power_mode => "cp"
  | A_enter_constant_current_mode => "ci"
  | A_enter_modulation_mode => "em"
  | A_clear_fault => "cf"
  end.

(** A text without underscores: [float] reads it as it stands. *)
Fixpoint no_underscore (s : string) : bool :=
  match s with
  | String c s' => negb (is_underscore c) && no_underscore s'
  | EmptyString => true
  end.

(** The number a finite float is printed as with [places] decimals, in
    units of the last place. *)
Definition printed_units (places : nat) (x : pyfloat) : Z :=
  match x with
  | S754_finite _ m e => scaled_nearest_even m e places
  | _ => 0%Z
  end.

(** What [float] makes of the text [format_f places x]: the float
    nearest to the printed decimal for a finite non-zero [x], and [x]
    itself otherwise. *)
Definition read_back (places : nat) (x : pyfloat) : pyfloat :=
  match x with
  | S754_finite s _ _ =>
      float_of_decimal s (Z.to_N (printed_units places x)) (- Z.of_nat places)
  | _ => x
  end.

(** The four commands of the script. *)
Definition script_commands : list command :=
  [Write "cp"; Write "l1"; Write "p 0.030"; Write "l0"].

Definition is_write (c : command) : bool :=
  match c with Write _ => true | Query _ => false end.

Definition is_getter (m : method) : bool :=
  match m with
  | Get_status | Get_analog_modulation_state | Get_digital_modulation_state
  | Get_power | Get_current | Get_operating_mode | Get_interlock_state
  | Get_operating_fault | Get_serial_number | Get_laser_head_operating_hours
  | Read_actual_output_power | Read_actual_laser_current => true
  | _ => false
  end.

(** The attribute of the driver a method depends on, if any: two drivers
    [agree_for] a method when they carry the same value there. *)
Definition agree_for (m : method) (d1 d2 : driver) : Prop :=
  match m with
  | Set_power _ => max_power d1 = max_power d2
  | Set_current _ => max_current d1 = max_current d2
  | _ => True
  end.

End Callers.

(** ** A bench with the cable unplugged

    The port opens, then every query and every write times out. *)

Module Unplugged.

Definition timeout : pyerr := VisaIOError (-1073807339).

Definition transport : Transport := {|
  rm := unit;
  session := nat;
  ResourceManager := inr tt;
  open_resource := fun _ _ _ => inr 0;
  visa_query := fun _ s => (inl timeout, s);
  visa_write := fun _ s => (inl timeout, s)
|}.

Definition fresh : instrument (T := transport) := @Instrument transport 0%nat [].

End Unplugged.

Section DriverFacts.

Import PyNum.

Context {T : Transport}.

(** ** Facts about float comparison *)

Lemma SFcompare_antisym (a b : pyfloat) :
  SFcompare b a = option_map CompOpp (SFcompare a b).
Proof.
  destruct a as [sa|sa| |sa ma ea], b as [sb|sb| |sb mb eb]; simpl;
    try destruct sa; try destruct sb; try reflexivity;
    rewrite (Z.compare_antisym ea eb);
    destruct (ea ?= eb)%Z; simpl; try reflexivity;
    change (Pos.compare_cont Eq mb ma)
      with (Pos.compare_cont (CompOpp Eq) mb ma);
    rewrite <- Pos.compare_cont_antisym;
    now rewrite ?CompOpp_involutive.
Qed.

(** [a >= b] is [b <= a]. *)
Lemma float_ge_le (a b : pyfloat) : float_ge a b = SFleb b a.
Proof.
  unfold float_ge, SFleb. rewrite (SFcompare_antisym a b).
  destruct (SFcompare a b) as [[ | | ]|]; reflexivity.
Qed.

(** The guard of [set_power] and [set_current] is the range test. *)
Lemma guard_in_range (hi v : pyfloat) :
  float_ge v zero && float_le v hi = in_range zero hi v.
Proof. unfold in_range, float_le. now rewrite float_ge_le. Qed.

Lemma float_lt_not_le (a b : pyfloat) : float_lt a b = true -> SFleb b a = false.
Proof.
  unfold float_lt, SFltb, SFleb. rewrite (SFcompare_antisym a b).
  destruct (SFcompare a b) as [[ | | ]|]; simpl; congruence.
Qed.

Lemma nan_not_le_r (a b : pyfloat) : is_nan b = true -> SFleb a b = false.
Proof. destruct b; try discriminate. now destruct a. Qed.

Lemma nan_not_le_l (a b : pyfloat) : is_nan a = true -> SFleb a b = false.
Proof. destruct a; try discriminate. now destruct b. Qed.

Lemma outside_not_in_range (lo hi v : pyfloat) :
  outside lo hi v -> in_range lo hi v = false.
Proof.
  unfold outside, in_range. intros [H|[H|[H|H]]].
  - now rewrite (float_lt_not_le _ _ H).
  - rewrite (float_lt_not_le _ _ H). apply andb_false_r.
  - now rewrite (nan_not_le_r lo v H).
  - rewrite (nan_not_le_r v hi H). apply andb_false_r.
Qed.

Lemma not_le_cases (a b : pyfloat) :
  SFleb a b = false -> float_lt b a = true \/ is_nan a = true \/ is_nan b = true.
Proof.
  unfold SFleb, float_lt, SFltb. rewrite (SFcompare_antisym a b).
  destruct (SFcompare a b) as [[ | | ]|] eqn:E; simpl; try discriminate; auto.
  intros _. right.
  destruct a as [sa|sa| |sa ma ea], b as [sb|sb| |sb mb eb]; simpl in *;
    auto; discriminate.
Qed.

(** Every float is either in the range or outside of it. *)
Lemma in_range_or_outside (hi v : pyfloat) :
  in_range zero hi v = true \/ outside zero hi v.
Proof.
  unfold in_range, outside.
  destruct (SFleb zero v) eqn:L; simpl.
  - destruct (SFleb v hi) eqn:U; auto.
    destruct (not_le_cases _ _ U) as [H|[H|H]]; auto.
  - destruct (not_le_cases _ _ L) as [H|[H|H]]; auto; discriminate.
Qed.

(** Nothing is in a range whose upper end is below zero. *)
Lemma negative_bound_empty_range (hi v : pyfloat) :
  float_lt hi zero = true -> in_range zero hi v = false.
Proof.
  unfold in_range, float_lt, zero.
  destruct hi as [sh|[|]| |[|] mh eh]; try discriminate; intros _;
    destruct v as [sv|[|]| |[|] mv ev]; reflexivity.
Qed.

(** ** Facts about the printed text *)

Lemma length_app (a b : string) :
  String.length (a ++ b) = String.length a + String.length b.
Proof. induction a as [|c a IH]; simpl; [reflexivity | now rewrite IH]. Qed.

Lemma all_digits_app (a b : string) :
  all_digits (a ++ b) = all_digits a && all_digits b.
Proof.
  induction a as [|c a IH]; simpl; [reflexivity |].
  now rewrite IH, andb_assoc.
Qed.

Lemma length_zeros (k : nat) : String.length (zeros k) = k.
Proof. induction k; simpl; congruence. Qed.

Lemma all_digits_zeros (k : nat) : all_digits (zeros k) = true.
Proof. induction k; simpl; auto. Qed.

Lemma all_digits_uint (d : Decimal.uint) :
  all_digits (NilEmpty.string_of_uint d) = true.
Proof. induction d; simpl; auto. Qed.

Lemma all_digits_str_of_N (n : N) : all_digits (str_of_N n) = true.
Proof.
  unfold str_of_N, NilZero.string_of_uint.
  destruct (N.to_uint n) eqn:E; try reflexivity;
    rewrite <- E; apply all_digits_uint.
Qed.

Lemma str_of_N_not_empty (n : N) : str_of_N n <> "".
Proof.
  unfold str_of_N, NilZero.string_of_uint.
  destruct (N.to_uint n); simpl; discriminate.
Qed.

(** The digits of a number below [10^3] fit in three characters; checked
    on each of them. *)
Lemma str_of_N_short (n : N) :
  (n < 1000)%N ->
  String.length (str_of_N n) <= 3 /\
  ((n < 100)%N -> String.length (str_of_N n) <= 2).
Proof.
  intros H.
  assert (A : forallb (fun k =>
                (String.length (str_of_N (N.of_nat k)) <=? 3)%nat &&
                ((100 <=? k)%nat || (String.length (str_of_N (N.of_nat k)) <=? 2)%nat))
              (seq 0 1000) = true) by (vm_compute; reflexivity).
  rewrite forallb_forall in A.
  specialize (A (N.to_nat n)). rewrite N2Nat.id in A.
  assert (I : In (N.to_nat n) (seq 0 1000)) by (apply in_seq; lia).
  apply A in I. apply andb_true_iff in I. destruct I as [I1 I2].
  apply Nat.leb_le in I1. split; [exact I1 |].
  intros H2. apply orb_true_iff in I2. destruct I2 as [I2|I2].
  - apply Nat.leb_le in I2. lia.
  - now apply Nat.leb_le in I2.
Qed.

Lemma zero_padded_text (width : nat) (n : N) :
  String.length (str_of_N n) <= width ->
  all_digits (zero_padded width n) = true /\
  String.length (zero_padded width n) = width.
Proof.
  intros H. unfold zero_padded. split.
  - now rewrite all_digits_app, all_digits_zeros, all_digits_str_of_N.
  - rewrite length_app, length_zeros. lia.
Qed.

Lemma fixed_digits_text (places : nat) (scaled : Z) :
  places = 2 \/ places = 3 ->
  exists ip fp : string,
    fixed_digits places scaled = ip ++ "." ++ fp /\
    ip <> "" /\ all_digits ip = true /\
    all_digits fp = true /\ String.length fp = places.
Proof.
  intros P.
  set (unit := (10 ^ Z.of_nat places)%Z).
  set (frac := Z.to_N (scaled mod unit)).
  assert (B : (0 <= scaled mod unit < unit)%Z)
    by (apply Z.mod_pos_bound; destruct P; subst places; reflexivity).
  assert (L : String.length (str_of_N frac) <= places).
  { destruct P; subst places unit frac; simpl in B.
    - apply str_of_N_short; lia.
    - apply str_of_N_short; lia. }
  destruct (zero_padded_text places frac L) as [D W].
  exists (str_of_N (Z.to_N (scaled / unit))), (zero_padded places frac).
  repeat split; auto using str_of_N_not_empty, all_digits_str_of_N.
  destruct P; subst places; reflexivity.
Qed.

(** [{x:.2f}] and [{x:.3f}] print a finite float with exactly two and
    three decimals. *)
Lemma format_f_fixed_point (places : nat) (x : pyfloat) :
  places = 2 \/ places = 3 -> is_finite x = true ->
  fixed_point_text places (format_f places x).
Proof.
  intros P F. unfold fixed_point_text.
  destruct x as [s|s| |s m e]; try discriminate; simpl.
  - destruct (fixed_digits_text places 0 P) as (ip & fp & E & H).
    exists s, ip, fp. now rewrite E.
  - destruct (fixed_digits_text places (scaled_nearest_even m e places) P)
      as (ip & fp & E & H).
    exists s, ip, fp. now rewrite E.
Qed.

(** ** Facts about the transport operations *)

Lemma sent_write (cmd : string) (i : instrument) :
  sent (snd (write cmd i)) = (sent i ++ [Write cmd])%list.
Proof. unfold write. now destruct (visa_write cmd (session_of i)). Qed.

Lemma set_status_guard (v : Z) :
  v <> 0%Z -> v <> 1%Z -> (v =? 1)%Z || (v =? 0)%Z = false.
Proof.
  intros H0 H1. apply orb_false_iff. split; now apply Z.eqb_neq.
Qed.

Lemma set_power_run (self : driver) (v : pyfloat) (i : instrument) :
  set_power self v i =
  if in_range zero (max_power self) v
  then write ("p " ++ format_f 3 v) i else (inr tt, i).
Proof.
  unfold set_power. rewrite guard_in_range.
  now destruct (in_range zero (max_power self) v).
Qed.

Lemma set_current_run (self : driver) (v : pyfloat) (i : instrument) :
  set_current self v i =
  if in_range zero (max_current self) v
  then write ("slc " ++ format_f 2 v) i else (inr tt, i).
Proof.
  unfold set_current. rewrite guard_in_range.
  now destruct (in_range zero (max_current self) v).
Qed.

(** A getter hands its fixed command to [query] once and parses the
    reply. *)
Lemma getter_run (self : driver) (g : getter) (i : instrument) :
  call self (getter_method g) i =
  (match fst (visa_query (getter_command g) (session_of i)) with
   | inl e => inl e
   | inr reply =>
       match coerce (getter_type g) reply with
       | Some v => inr v
       | None => inl (ValueError (getter_type g) reply)
       end
   end,
   Instrument (snd (visa_query (getter_command g) (session_of i)))
              ((sent i ++ [Query (getter_command g)])%list)).
Proof.
  destruct g; simpl;
    unfold returning, get_status, get_analog_modulation_state,
      get_digital_modulation_state, get_power, get_current,
      get_operating_mode, get_interlock_state, get_operating_fault,
      get_serial_number, get_laser_head_operating_hours,
      read_actual_output_power, read_actual_laser_current,
      bind, query, int, float, ret, raise;
    match goal with
    | |- context [visa_query ?c ?s] =>
        destruct (visa_query c s) as [[e|reply] s']
    end; simpl; try reflexivity;
    try (destruct (py_int reply); reflexivity);
    destruct (py_float reply); reflexivity.
Qed.

(** ** The claims *)

(** Claim C1.  An out-of-range argument makes every setter a silent
    no-op: [set_status] and the two modulation setters on a flag other
    than 0 and 1, [set_power] and [set_current] on a value below zero,
    above the limit or not comparable with it (every float is either in
    the range or in one of these cases).  The call returns [None] without
    raising, and the instrument (session and log of commands) is left as
    it was. *)
Theorem out_of_range_setter_is_silent (self : driver) (i : instrument) :
  (forall hi v, in_range zero hi v = true \/ outside zero hi v) /\
  (forall v, v <> 0%Z -> v <> 1%Z ->
     set_status self v i = (inr tt, i)) /\
  (forall v, v <> 0%Z -> v <> 1%Z ->
     set_analog_modulation_state self v i = (inr tt, i)) /\
  (forall v, v <> 0%Z -> v <> 1%Z ->
     set_digital_modulation_state self v i = (inr tt, i)) /\
  (forall v, outside zero (max_power self) v ->
     set_power self v i = (inr tt, i)) /\
  (forall v, outside zero (max_current self) v ->
     set_current self v i = (inr tt, i)).
Proof.
  split; [exact in_range_or_outside |].
  repeat split; intros v.
  - intros H0 H1. unfold set_status. now rewrite set_status_guard.
  - intros H0 H1. unfold set_analog_modulation_state.
    now rewrite set_status_guard.
  - intros H0 H1. unfold set_digital_modulation_state.
    now rewrite set_status_guard.
  - intros H. now rewrite set_power_run, outside_not_in_range.
  - intros H. now rewrite set_current_run, outside_not_in_range.
Qed.

(** Claim C2, as amended.  [set_power] and [set_current] test the value
    against the range and do not clamp: the log gains the one write that
    carries the value itself when it is in range, and nothing when it is
    not, in which case the call returns with the instrument untouched. *)
Theorem range_check_drops_out_of_range (self : driver) (v : pyfloat) (i : instrument) :
  sent (snd (set_power self v i)) =
    (sent i ++ (if in_range zero (max_power self) v
                then [Write ("p " ++ format_f 3 v)%string] else []))%list /\
  sent (snd (set_current self v i)) =
    (sent i ++ (if in_range zero (max_current self) v
                then [Write ("slc " ++ format_f 2 v)%string] else []))%list /\
  (in_range zero (max_power self) v = false ->
     set_power self v i = (inr tt, i)) /\
  (in_range zero (max_current self) v = false ->
     set_current self v i = (inr tt, i)).
Proof.
  rewrite set_power_run, set_current_run.
  destruct (in_range zero (max_power self) v),
           (in_range zero (max_current self) v);
    rewrite ?sent_write; simpl; rewrite ?app_nil_r;
    repeat split; auto; discriminate.
Qed.

(** Claim C3.  For [0 <= v <= max_power], [set_power(v)] is the single
    write of ["p "] followed by [v] printed with [.3f]: the log gains that
    write and no query.  A finite [v] is printed with exactly three
    decimals, and [0.03] as [0.030]. *)
Theorem set_power_writes_formatted (self : driver) (v : pyfloat) (i : instrument) :
  SFleb zero v = true -> SFleb v (max_power self) = true ->
  set_power self v i = write ("p " ++ format_f 3 v) i /\
  sent (snd (set_power self v i)) = (sent i ++ [Write ("p " ++ format_f 3 v)%string])%list /\
  (is_finite v = true -> fixed_point_text 3 (format_f 3 v)) /\
  py_float "0.03" = Some Bench.f0_03 /\
  "p " ++ format_f 3 Bench.f0_03 = "p 0.030".
Proof.
  intros L U.
  assert (R : in_range zero (max_power self) v = true)
    by (unfold in_range; now rewrite L, U).
  rewrite set_power_run, R, sent_write.
  split; [reflexivity |]. split; [reflexivity |].
  split; [intros F; apply format_f_fixed_point; auto |].
  split; vm_compute; reflexivity.
Qed.

(** Claim C4.  For [0 <= v <= max_current], [set_current(v)] is the
    single write of ["slc "] followed by [v] printed with [.2f] (exactly
    two decimals for a finite [v]; [125] gives [slc 125.00]); for [v]
    outside the range nothing is sent. *)
Theorem set_current_writes_formatted (self : driver) (v : pyfloat) (i : instrument) :
  (SFleb zero v = true -> SFleb v (max_current self) = true ->
     set_current self v i = write ("slc " ++ format_f 2 v) i /\
     sent (snd (set_current self v i)) =
       (sent i ++ [Write ("slc " ++ format_f 2 v)%string])%list /\
     (is_finite v = true -> fixed_point_text 2 (format_f 2 v))) /\
  (outside zero (max_current self) v ->
     set_current self v i = (inr tt, i)) /\
  float_of_int 125 = Bench.f125 /\
  "slc " ++ format_f 2 Bench.f125 = "slc 125.00".
Proof.
  rewrite set_current_run.
  split; [| split; [| split; vm_compute; reflexivity]].
  - intros L U. unfold in_range. rewrite L, U. simpl.
    split; [reflexivity |]. split; [apply sent_write |].
    intros F. apply format_f_fixed_point; auto.
  - intros O. now rewrite outside_not_in_range.
Qed.

(** Claim C5.  [set_digital_modulation_state] is the very function
    [set_analog_modulation_state]; for [v] in {0,1} it is the single write
    of ["sames "] followed by [v], that is [sames 0] or [sames 1]. *)
Theorem digital_setter_writes_sames :
  set_digital_modulation_state = set_analog_modulation_state /\
  forall (self : driver) (v : Z) (i : instrument),
    v = 0%Z \/ v = 1%Z ->
    set_digital_modulation_state self v i = write ("sames " ++ str_of_int v) i /\
    set_analog_modulation_state self v i = write ("sames " ++ str_of_int v) i /\
    sent (snd (set_digital_modulation_state self v i)) =
      (sent i ++ [Write ("sames " ++ str_of_int v)%string])%list /\
    ("sames " ++ str_of_int v = "sames 0" \/
     "sames " ++ str_of_int v = "sames 1").
Proof.
  split; [reflexivity |].
  intros self v i [-> | ->];
    unfold set_digital_modulation_state, set_analog_modulation_state;
    simpl; repeat split; auto using sent_write.
Qed.

(** Claim C6.  Each of the twelve getters passes its fixed command to
    [query] exactly once and writes nothing: the log gains that one query,
    the session is the one the query left, an error of the transport is
    passed on, and a reply that parses is returned as the plain [int],
    [float] or [str] it reads as. *)
Theorem getter_issues_one_query (self : driver) (g : getter) (i : instrument) :
  let out := call self (getter_method g) i in
  let answer := visa_query (getter_command g) (session_of i) in
  sent (snd out) = (sent i ++ [Query (getter_command g)])%list /\
  session_of (snd out) = snd answer /\
  (forall e, fst answer = inl e -> fst out = inl e) /\
  (forall reply v,
     fst answer = inr reply -> coerce (getter_type g) reply = Some v ->
     fst out = inr v) /\
  (forall reply,
     fst answer = inr reply -> getter_type g = TStr ->
     fst out = inr (PStr reply)).
Proof.
  cbv zeta. rewrite getter_run. cbn [fst snd sent session_of].
  repeat split.
  - intros e E. now rewrite E.
  - intros reply v E C. rewrite E. cbv beta iota. now rewrite C.
  - intros reply E Ty. rewrite E. cbv beta iota. now rewrite Ty.
Qed.

(** Claim C7.  When the reply to a getter that returns a number does not
    parse as that number, the call raises the [ValueError] of the failed
    conversion, unchanged, and the one query has been issued. *)
Theorem malformed_reply_raises_value_error
  (self : driver) (g : getter) (i : instrument) (reply : string) (s : session) :
  is_numeric (getter_type g) = true ->
  visa_query (getter_command g) (session_of i) = (inr reply, s) ->
  coerce (getter_type g) reply = None ->
  call self (getter_method g) i =
    (inl (ValueError (getter_type g) reply),
     Instrument s (sent i ++ [Query (getter_command g)])).
Proof.
  intros _ E C. rewrite getter_run, E. cbn [fst snd]. now rewrite C.
Qed.

(** Claim C8.  Construction is all or nothing: when the resource manager
    or the opening of the resource raises, the constructor call raises
    the same error and yields no driver; when it returns, the driver holds
    the name, address, wavelength and limits it was given and its
    instrument is the freshly opened session. *)
Theorem construction_all_or_nothing (n a : string) (mp mc wl : pyfloat) :
  (forall e, ResourceManager = inl e -> init n a mp mc wl = inl e) /\
  (forall m e,
     ResourceManager = inr m -> open_resource m a crlf = inl e ->
     init n a mp mc wl = inl e) /\
  (forall self i,
     init n a mp mc wl = inr (self, i) ->
     name self = n /\ address self = a /\ wavelength self = wl /\
     max_power self = mp /\ max_current self = mc /\
     sent i = [] /\
     exists m, ResourceManager = inr m /\
               open_resource m a crlf = inr (session_of i)).
Proof.
  unfold init. split; [| split].
  - intros e E. now rewrite E.
  - intros m e E O. now rewrite E, O.
  - intros self i.
    destruct ResourceManager as [e|m]; [discriminate |].
    destruct (open_resource m a crlf) as [e|s] eqn:O; [discriminate |].
    intros H. injection H as <- <-. simpl.
    repeat split. exists m. auto.
Qed.

(** Claim C9.  Two drivers that differ in nothing but the stored
    wavelength behave alike: every method, on every argument, is the same
    computation on the instrument (same commands, same result). *)
Theorem wavelength_is_inert (d1 d2 : driver) (m : method) :
  name d1 = name d2 -> address d1 = address d2 ->
  max_power d1 = max_power d2 -> max_current d1 = max_current d2 ->
  call d1 m = call d2 m.
Proof.
  destruct d1, d2. simpl. intros -> -> -> ->.
  destruct m; reflexivity.
Qed.

(** Claim C10.  The constructor does not look at the limits: whenever the
    resource opens, the driver is built with the limits as given.  With a
    limit below zero the matching setter sends nothing, whatever its
    argument. *)
Theorem negative_limit_disables_setter (n a : string) (mp mc wl : pyfloat) :
  (forall m s,
     ResourceManager = inr m -> open_resource m a crlf = inr s ->
     init n a mp mc wl = inr (Driver n a wl mp mc, Instrument s [])) /\
  (forall self,
     float_lt (max_power self) zero = true ->
     forall v i, set_power self v i = (inr tt, i)) /\
  (forall self,
     float_lt (max_current self) zero = true ->
     forall v i, set_current self v i = (inr tt, i)).
Proof.
  split; [| split].
  - intros m s E O. unfold init. now rewrite E, O.
  - intros self H v i.
    now rewrite set_power_run, negative_bound_empty_range.
  - intros self H v i.
    now rewrite set_current_run, negative_bound_empty_range.
Qed.

End DriverFacts.

(** ** The driver on the bench *)

Section OnTheBench.

Import PyNum Bench.

Local Existing Instance Bench.transport.

(** The bench floats are the binary64 values of their literals. *)
Example bench_floats :
  py_float "0.03" = Some f0_03 /\ py_float "0.08" = Some f0_08 /\
  py_float "1.0" = Some f1 /\ py_float "-1.0" = Some minus_f1 /\
  float_of_int 125 = f125 /\ float_of_int 250 = f250 /\
  float_of_int 300 = f300 /\ float_of_int 514 = f514 /\
  forallb is_binary64 [f0_03; f0_08; f1; minus_f1; f125; f250; f300; f514] = true.
Proof. vm_compute. repeat split. Qed.

(** The script of the module constructs the laser on [ASRL3] and sends
    four commands. *)
Example main_script_trace :
  init "laser" "ASRL3" f0_08 (float_of_int 250) (float_of_int 514) = inr (laser, fresh) /\
  main_script laser fresh =
    (inr tt, Instrument 4 [Write "cp"; Write "l1"; Write "p 0.030"; Write "l0"]).
Proof. vm_compute. split; reflexivity. Qed.

(** On the bench: a flag of 2, -1 or 7, a power of 1.0 W against a limit
    of 0.08 W and a current of -1.0 are all dropped. *)
Lemma out_of_range_setter_is_silent_witness :
  set_status laser 2 fresh = (inr tt, fresh) /\
  set_analog_modulation_state laser (-1) fresh = (inr tt, fresh) /\
  set_digital_modulation_state laser 7 fresh = (inr tt, fresh) /\
  set_power laser f1 fresh = (inr tt, fresh) /\
  set_current laser minus_f1 fresh = (inr tt, fresh).
Proof.
  destruct (out_of_range_setter_is_silent laser fresh)
    as (_ & H1 & H2 & H3 & H4 & H5).
  split; [apply H1; discriminate |].
  split; [apply H2; discriminate |].
  split; [apply H3; discriminate |].
  split; [apply H4; right; left; reflexivity |].
  apply H5; left; reflexivity.
Defined.

(** Claim C2 as stated fails: with [max_power = 0.08], [set_power(1.0)]
    sends nothing, where clamping would send [p 0.080]. *)
Lemma set_power_does_not_clamp :
  sent (snd (set_power laser f1 fresh)) = [] /\
  sent (snd (set_power_clamping laser f1 fresh)) = [Write "p 0.080"] /\
  set_power laser f1 fresh <> set_power_clamping laser f1 fresh.
Proof.
  split; [reflexivity |]. split; [reflexivity |]. discriminate.
Qed.

(** On the bench: 1.0 W is dropped, 0.03 W is sent, 300 is dropped. *)
Lemma range_check_drops_out_of_range_witness :
  sent (snd (set_power laser f1 fresh)) = [] /\
  sent (snd (set_power laser f0_03 fresh)) = [Write "p 0.030"] /\
  set_current laser f300 fresh = (inr tt, fresh).
Proof.
  split; [exact (proj1 (range_check_drops_out_of_range laser f1 fresh)) |].
  split; [exact (proj1 (range_check_drops_out_of_range laser f0_03 fresh)) |].
  exact (proj2 (proj2 (proj2
    (range_check_drops_out_of_range laser f300 fresh))) eq_refl).
Defined.

(** On the bench: [set_power(0.03)] sends [p 0.030]. *)
Lemma set_power_writes_formatted_witness :
  SFleb zero f0_03 = true /\ SFleb f0_03 (max_power laser) = true /\
  sent (snd (set_power laser f0_03 fresh)) = [Write "p 0.030"] /\
  fixed_point_text 3 (format_f 3 f0_03).
Proof.
  destruct (set_power_writes_formatted laser f0_03 fresh eq_refl eq_refl)
    as (_ & H & F & _).
  split; [reflexivity |]. split; [reflexivity |].
  split; [exact H | exact (F eq_refl)].
Defined.

(** On the bench: [set_current(125)] sends [slc 125.00], and
    [set_current(300)] nothing. *)
Lemma set_current_writes_formatted_witness :
  SFleb zero f125 = true /\ SFleb f125 (max_current laser) = true /\
  sent (snd (set_current laser f125 fresh)) = [Write "slc 125.00"] /\
  outside zero (max_current laser) f300 /\
  set_current laser f300 fresh = (inr tt, fresh).
Proof.
  destruct (set_current_writes_formatted laser f125 fresh) as (H & _).
  destruct (H eq_refl eq_refl) as (_ & S & _).
  destruct (set_current_writes_formatted laser f300 fresh) as (_ & O & _).
  assert (Out : outside zero (max_current laser) f300)
    by (right; left; reflexivity).
  split; [reflexivity |]. split; [reflexivity |].
  split; [exact S |]. split; [exact Out | exact (O Out)].
Defined.

(** On the bench: both modulation setters send [sames 1]. *)
Lemma digital_setter_writes_sames_witness :
  sent (snd (set_digital_modulation_state laser 1 fresh)) = [Write "sames 1"] /\
  sent (snd (set_analog_modulation_state laser 1 fresh)) = [Write "sames 1"].
Proof.
  destruct digital_setter_writes_sames as (E & H).
  destruct (H laser 1%Z fresh (or_intror eq_refl)) as (_ & _ & S & _).
  split; [exact S |]. rewrite <- E. exact S.
Defined.

(** On the bench: [get_status()] queries [l?] and returns the int 1;
    [get_operating_mode()] returns the reply as it is. *)
Lemma getter_issues_one_query_witness :
  call laser Get_status fresh = (inr (PInt 1), Instrument 1 [Query "l?"]) /\
  fst (call laser Get_operating_mode fresh) = inr (PStr "OK").
Proof.
  destruct (getter_issues_one_query laser G_status fresh)
    as (S & Q & _ & V & _).
  destruct (getter_issues_one_query laser G_operating_mode fresh)
    as (_ & _ & _ & _ & R).
  specialize (V "1" (PInt 1) eq_refl eq_refl).
  specialize (R "OK" eq_refl eq_refl).
  split; [| exact R].
  destruct (call laser (getter_method G_status) fresh) as [r [s l]].
  simpl in S, Q, V. now subst.
Defined.

(** On the bench: the replies to [gsn?] and [hrs?] are not numbers, and
    the two getters raise. *)
Lemma malformed_reply_raises_value_error_witness :
  py_int "no serial" = None /\ py_float "12.5 h" = None /\
  call laser Get_serial_number fresh =
    (inl (ValueError TInt "no serial"), Instrument 1 [Query "gsn?"]) /\
  call laser Get_laser_head_operating_hours fresh =
    (inl (ValueError TFloat "12.5 h"), Instrument 1 [Query "hrs?"]).
Proof.
  split; [reflexivity |]. split; [reflexivity |]. split.
  - exact (malformed_reply_raises_value_error laser G_serial_number fresh
             "no serial" 1 eq_refl eq_refl eq_refl).
  - exact (malformed_reply_raises_value_error laser
             G_laser_head_operating_hours fresh
             "12.5 h" 1 eq_refl eq_refl eq_refl).
Defined.

(** On the bench: [COM9] cannot be opened, [ASRL3] can. *)
Lemma construction_all_or_nothing_witness :
  init "laser" "COM9" f0_08 f250 f514 = inl (VisaIOError (-1073807343)) /\
  init "laser" "ASRL3" f0_08 f250 f514 = inr (laser, fresh) /\
  name laser = "laser" /\ address laser = "ASRL3" /\
  wavelength laser = f514 /\ max_power laser = f0_08 /\
  max_current laser = f250.
Proof.
  destruct (construction_all_or_nothing "laser" "COM9" f0_08 f250 f514)
    as (_ & F & _).
  destruct (construction_all_or_nothing "laser" "ASRL3" f0_08 f250 f514)
    as (_ & _ & K).
  destruct (K laser fresh eq_refl) as (N & A & W & P & C & _).
  split; [exact (F tt _ eq_refl eq_refl) |].
  split; [reflexivity |]. auto.
Defined.

(** On the bench: the laser relabelled to another wavelength. *)
Lemma wavelength_is_inert_witness :
  call (with_wavelength f125 laser) (Set_power f0_03) = call laser (Set_power f0_03) /\
  call (with_wavelength f125 laser) Get_power = call laser Get_power.
Proof.
  split.
  - exact (wavelength_is_inert (with_wavelength f125 laser) laser
             (Set_power f0_03) eq_refl eq_refl eq_refl eq_refl).
  - exact (wavelength_is_inert (with_wavelength f125 laser) laser
             Get_power eq_refl eq_refl eq_refl eq_refl).
Defined.

(** On the bench: a laser constructed with both limits at -1.0. *)
Lemma negative_limit_disables_setter_witness :
  float_lt minus_f1 zero = true /\
  init "laser" "ASRL3" minus_f1 minus_f1 f514 =
    inr (Driver "laser" "ASRL3" f514 minus_f1 minus_f1, fresh) /\
  set_power (Driver "laser" "ASRL3" f514 minus_f1 minus_f1) f0_03 fresh =
    (inr tt, fresh) /\
  set_current (Driver "laser" "ASRL3" f514 minus_f1 minus_f1) zero fresh =
    (inr tt, fresh).
Proof.
  destruct (negative_limit_disables_setter "laser" "ASRL3" minus_f1 minus_f1 f514)
    as (I & P & C).
  split; [reflexivity |].
  split; [exact (I tt 0 eq_refl eq_refl) |].
  split.
  - exact (P (Driver "laser" "ASRL3" f514 minus_f1 minus_f1) eq_refl f0_03 fresh).
  - exact (C (Driver "laser" "ASRL3" f514 minus_f1 minus_f1) eq_refl zero fresh).
Defined.

End OnTheBench.

(** ** Further properties of the driver *)

Section MoreFacts.

Import PyNum.

Context {T : Transport}.

(** Unfolds a call down to the transport and splits on what the transport
    and the parsers answer. *)
Ltac run_call :=
  unfold call, returning, none,
    get_status, set_status,
    get_analog_modulation_state, set_analog_modulation_state,
    get_digital_modulation_state, set_digital_modulation_state,
    get_power, get_current,
    get_operating_mode, get_interlock_state, get_operating_fault,
    get_serial_number, get_laser_head_operating_hours,
    laser_on_force_autostart, laser_off, enter_constant_power_mode,
    enter_constant_current_mode, enter_modulation_mode,
    read_actual_output_power, read_actual_laser_current, clear_fault,
    bind, query, write, int, float, ret, raise;
  repeat match goal with
  | |- context [if ?b then _ else _] => destruct b eqn:?
  | |- context [visa_query ?c ?s] =>
      let E := fresh "Q" in destruct (visa_query c s) as [[?|?] ?] eqn:E
  | |- context [visa_write ?c ?s] =>
      let E := fresh "W" in destruct (visa_write c s) as [[?|?] ?] eqn:E
  | |- context [py_int ?r] => destruct (py_int r)
  | |- context [py_float ?r] => destruct (py_float r)
  end;
  cbn [fst snd sent session_of].

Lemma write_run (cmd : string) (i : instrument) :
  write cmd i =
  (fst (visa_write cmd (session_of i)),
   Instrument (snd (visa_write cmd (session_of i))) (sent i ++ [Write cmd])).
Proof. unfold write. now destruct (visa_write cmd (session_of i)). Qed.

Lemma returning_run {A : Type} (w : A -> pyval) (m : io A) (i : instrument) :
  returning w m i =
  (match fst (m i) with inl e => inl e | inr a => inr (w a) end, snd (m i)).
Proof. unfold returning, bind, ret. now destruct (m i) as [[e|a] i']. Qed.

Lemma app_one_neq {A : Type} (l : list A) (x : A) : (l ++ [x])%list <> l.
Proof.
  intros H. apply (f_equal (@List.length A)) in H.
  rewrite List.length_app in H. simpl in H. lia.
Qed.

(** Every call leaves the earlier log in place and adds at most one
    command to it. *)
Lemma call_extends_log (self : driver) (m : method) (i : instrument) :
  exists cs,
    sent (snd (call self m i)) = (sent i ++ cs)%list /\
    List.length cs <= 1 /\
    (is_getter m = true -> forallb is_write cs = false \/ cs = []).
Proof.
  destruct m; cbn [call is_getter]; rewrite returning_run; cbn [snd];
    try rewrite set_power_run; try rewrite set_current_run;
    run_call;
    first [ exists []; rewrite app_nil_r;
            split; [reflexivity | split; [simpl; lia | auto]]
          | eexists; split; [reflexivity | split; [simpl; lia |]];
            first [discriminate | intros _; left; reflexivity] ].
Qed.

(** ** Properties beyond the claims *)

(** X1.  For a flag of 0 or 1, [set_status] is the single write of [l0]
    or [l1] (the flag follows the letter without a space): the log gains
    that write and nothing else. *)
Theorem set_status_writes_flag (self : driver) (v : Z) (i : instrument) :
  v = 0%Z \/ v = 1%Z ->
  set_status self v i = write ("l" ++ str_of_int v) i /\
  sent (snd (set_status self v i)) =
    (sent i ++ [Write ("l" ++ str_of_int v)%string])%list /\
  ("l" ++ str_of_int v = "l0" \/ "l" ++ str_of_int v = "l1").
Proof.
  intros [-> | ->]; unfold set_status; simpl;
    repeat split; auto using sent_write.
Qed.

(** X2.  Each of the six argument-free methods is exactly one write of
    its own command, with no query and whatever the attributes of the
    driver: it returns [None] when the write returns and raises what the
    write raises.  No two of them send the same command. *)
Theorem action_sends_its_command (self : driver) (a : action) (i : instrument) :
  call self (action_method a) i =
    (match fst (visa_write (action_command a) (session_of i)) with
     | inl e => inl e
     | inr _ => inr PNone
     end,
     Instrument (snd (visa_write (action_command a) (session_of i)))
                (sent i ++ [Write (action_command a)])) /\
  (forall b, action_command a = action_command b -> a = b).
Proof.
  split.
  - destruct a; cbn [call action_method action_command];
      rewrite returning_run; run_call; reflexivity.
  - intros b; destruct a, b; simpl; intros H;
      first [reflexivity | discriminate H].
Qed.

(** X3.  The transport's errors are not caught.  When the session at hand
    answers every query and every write with the error [e], a call either
    raises [e], or is a setter that dropped its argument and returned
    without touching the instrument. *)
Theorem transport_error_propagates
  (self : driver) (m : method) (i : instrument) (e : pyerr) :
  (forall c, fst (visa_query c (session_of i)) = inl e) ->
  (forall c, fst (visa_write c (session_of i)) = inl e) ->
  fst (call self m i) = inl e \/
  (is_getter m = false /\ call self m i = (inr PNone, i)).
Proof.
  intros Hq Hw.
  destruct m; cbn [call is_getter];
    try rewrite (returning_run _ (set_power _ _));
    try rewrite (returning_run _ (set_current _ _));
    try rewrite set_power_run; try rewrite set_current_run;
    run_call;
    repeat match goal with
    | Q : visa_query ?c _ = _ |- _ =>
        let H := fresh in
        pose proof (Hq c) as H; rewrite Q in H; cbn [fst] in H; clear Q
    | W : visa_write ?c _ = _ |- _ =>
        let H := fresh in
        pose proof (Hw c) as H; rewrite W in H; cbn [fst] in H; clear W
    end;
    try discriminate;
    first [ left; congruence | right; split; reflexivity ].
Qed.

(** X4.  A call adds at most one command to the log and never touches
    what was there: a getter adds a query, any other method a write, and
    the only calls that add nothing are those that return [None] with the
    instrument as it was. *)
Theorem call_sends_at_most_one_command (self : driver) (m : method) (i : instrument) :
  exists cs,
    sent (snd (call self m i)) = (sent i ++ cs)%list /\
    List.length cs <= 1 /\
    (forall c, In c cs -> is_write c = negb (is_getter m)) /\
    (cs = [] -> is_getter m = false /\ call self m i = (inr PNone, i)).
Proof.
  destruct m; cbn [call is_getter]; rewrite returning_run;
    try rewrite set_power_run; try rewrite set_current_run;
    run_call;
    first
      [ exists []; rewrite app_nil_r;
        split; [reflexivity |]; split; [simpl; lia |];
        split; [intros c [] | intros _; split; reflexivity]
      | eexists; split; [reflexivity |]; split; [simpl; lia |];
        split; [intros c [<- | []]; reflexivity | discriminate] ].
Qed.

(** X5.  The limits are the only attributes a method reads, and each by
    one method: [set_power] depends on [max_power], [set_current] on
    [max_current], and every other method is the same computation on any
    two drivers. *)
Theorem only_limits_are_read (d1 d2 : driver) (m : method) :
  agree_for m d1 d2 -> call d1 m = call d2 m.
Proof.
  destruct m; cbn [agree_for call]; intros H; try reflexivity.
  - unfold set_power. now rewrite H.
  - unfold set_current. now rewrite H.
Qed.

(** X6.  The driver keeps no copy of the emission status: after
    [set_status(v)] has written [l0] or [l1], [get_status()] queries [l?]
    on the session the write left and returns what that reply parses to,
    whatever [v] was. *)
Theorem status_is_not_cached
  (self : driver) (v : Z) (i : instrument) (s1 s2 : session) (reply : string) :
  v = 0%Z \/ v = 1%Z ->
  visa_write ("l" ++ str_of_int v) (session_of i) = (inr tt, s1) ->
  visa_query "l?" s1 = (inr reply, s2) ->
  set_then_get_status self v i =
    (match py_int reply with
     | Some z => inr z
     | None => inl (ValueError TInt reply)
     end,
     Instrument s2 (sent i ++ [Write ("l" ++ str_of_int v)%string; Query "l?"])).
Proof.
  intros V W Q.
  unfold set_then_get_status, bind, set_status, get_status, bind, write, query.
  assert (G : (v =? 1)%Z || (v =? 0)%Z = true) by (destruct V; subst; reflexivity).
  rewrite G, W. cbn [session_of sent]. rewrite Q.
  rewrite <- app_assoc. cbn [app].
  unfold int, ret, raise. now destruct (py_int reply).
Qed.

Lemma script_power_text : "p " ++ format_f 3 Bench.f0_03 = "p 0.030".
Proof. vm_compute. reflexivity. Qed.

(** X7.  Run as a script, the module sends [cp], [l1], [p 0.030], [l0] in
    this order and nothing else: what reaches the instrument is always a
    prefix of these four commands, all four when the run ends normally,
    and none when the construction raises. *)
Theorem main_sends_script_in_order :
  (exists rest, script_commands = (snd main ++ rest)%list) /\
  (fst main = inr tt -> snd main = script_commands) /\
  (forall e,
     init "laser" "ASRL3" Bench.f0_08 (float_of_int 250) (float_of_int 514) = inl e ->
     main = (inl e, [])).
Proof.
  unfold main, init.
  destruct ResourceManager as [e|mgr].
  { simpl. split; [now exists script_commands |].
    split; [discriminate | now intros e' [= ->]]. }
  destruct (open_resource mgr "ASRL3" crlf) as [e|s].
  { simpl. split; [now exists script_commands |].
    split; [discriminate | now intros e' [= ->]]. }
  split; [| split; [| discriminate]];
    unfold script, bind, enter_constant_power_mode, set_status;
    cbn [Z.eqb Pos.eqb orb];
    repeat
      (cbn beta iota delta [fst snd sent session_of app];
       match goal with
       | |- context [set_power ?d ?v ?i] =>
           rewrite (set_power_run d v i);
           change (in_range zero (max_power d) v) with true;
           rewrite script_power_text
       | |- context [write ?c ?i] => rewrite (write_run c i)
       | |- context [visa_write ?c ?x] =>
           destruct (visa_write c x) as [[?|[]] ?]
       end);
    cbn beta iota delta [fst snd sent session_of app];
    try discriminate; try reflexivity;
    unfold script_commands; eexists; reflexivity.
Qed.

(** ** Facts about the range test *)

Lemma SFleb_refl (x : pyfloat) : is_nan x = false -> SFleb x x = true.
Proof.
  unfold SFleb.
  destruct x as [[|]|[|]| |[|] m e]; simpl; try reflexivity; try discriminate;
    intros _; rewrite Z.compare_refl, Pos.compare_cont_refl; reflexivity.
Qed.

Lemma in_range_limit_nonneg (hi v : pyfloat) :
  in_range zero hi v = true -> SFleb zero hi = true.
Proof.
  unfold in_range, zero.
  destruct v as [sv|[|]| |[|] mv ev]; try discriminate;
    destruct hi as [sh|[|]| |[|] mh eh]; try discriminate; reflexivity.
Qed.

Lemma limit_in_range (hi : pyfloat) :
  SFleb zero hi = true -> in_range zero hi hi = true /\ in_range zero hi zero = true.
Proof.
  intros H. unfold in_range. rewrite H.
  assert (N : is_nan hi = false) by (destruct hi; auto; discriminate).
  now rewrite (SFleb_refl hi N).
Qed.

Lemma in_range_finite (hi v : pyfloat) :
  is_finite hi = true -> in_range zero hi v = true -> is_finite v = true.
Proof.
  unfold in_range, zero.
  destruct hi as [sh|sh| |sh mh eh]; try discriminate; intros _;
    destruct v as [sv|[|]| |sv mv ev]; try discriminate; reflexivity.
Qed.

(** Among the floats that are not below zero, only the negative zero is
    printed with a minus sign. *)
Lemma minus_sign_only_for_negative_zero (places : nat) (x : pyfloat) (rest : string) :
  places = 2 \/ places = 3 -> is_finite x = true -> SFleb zero x = true ->
  format_f places x = "-" ++ rest -> x = S754_zero true.
Proof.
  intros P F L E.
  assert (D : forall q, fixed_digits places q <> "-" ++ rest).
  { intros q Eq.
    destruct (fixed_digits_text places q P) as (ip & fp & E' & N & D & _).
    rewrite E' in Eq. destruct ip as [|c ip]; [congruence |].
    simpl in Eq, D. injection Eq as -> _. discriminate. }
  destruct x as [[|]|s| |[|] m e]; try discriminate; try reflexivity;
    simpl in E; now apply D in E.
Qed.

(** X8.  A setter can send something exactly when its limit is not below
    zero (a negative or NaN limit disables it); then both ends of the
    range are accepted: the limit itself and zero. *)
Theorem setter_is_live_iff_limit_nonnegative (self : driver) (i : instrument) :
  ((exists v, sent (snd (set_power self v i)) <> sent i) <->
   SFleb zero (max_power self) = true) /\
  ((exists v, sent (snd (set_current self v i)) <> sent i) <->
   SFleb zero (max_current self) = true) /\
  (SFleb zero (max_power self) = true ->
   set_power self (max_power self) i =
     write ("p " ++ format_f 3 (max_power self)) i /\
   set_power self zero i = write "p 0.000" i) /\
  (SFleb zero (max_current self) = true ->
   set_current self (max_current self) i =
     write ("slc " ++ format_f 2 (max_current self)) i /\
   set_current self zero i = write "slc 0.00" i).
Proof.
  split; [| split; [| split]].
  - split.
    + intros [v H]. rewrite set_power_run in H.
      destruct (in_range zero (max_power self) v) eqn:R.
      * now apply in_range_limit_nonneg in R.
      * now contradiction H.
    + intros L. exists (max_power self).
      rewrite set_power_run. destruct (limit_in_range _ L) as [-> _].
      rewrite sent_write. apply app_one_neq.
  - split.
    + intros [v H]. rewrite set_current_run in H.
      destruct (in_range zero (max_current self) v) eqn:R.
      * now apply in_range_limit_nonneg in R.
      * now contradiction H.
    + intros L. exists (max_current self).
      rewrite set_current_run. destruct (limit_in_range _ L) as [-> _].
      rewrite sent_write. apply app_one_neq.
  - intros L. rewrite !set_power_run.
    now destruct (limit_in_range _ L) as [-> ->].
  - intros L. rewrite !set_current_run.
    now destruct (limit_in_range _ L) as [-> ->].
Qed.

(** X9.  With a finite limit, what [set_power] and [set_current] send is
    always a numeral: an accepted value is finite and is printed in
    fixed-point notation with three (two) decimals, with a minus sign only
    for the negative zero.  With an infinite limit, infinity is accepted
    and sent as [p inf] ([slc inf]). *)
Theorem accepted_value_is_sent_as_numeral (self : driver) (v : pyfloat) (i : instrument) :
  (is_finite (max_power self) = true ->
   in_range zero (max_power self) v = true ->
   set_power self v i = write ("p " ++ format_f 3 v) i /\
   fixed_point_text 3 (format_f 3 v) /\
   (forall rest, format_f 3 v = "-" ++ rest -> v = S754_zero true)) /\
  (is_finite (max_current self) = true ->
   in_range zero (max_current self) v = true ->
   set_current self v i = write ("slc " ++ format_f 2 v) i /\
   fixed_point_text 2 (format_f 2 v) /\
   (forall rest, format_f 2 v = "-" ++ rest -> v = S754_zero true)) /\
  (max_power self = S754_infinity false ->
   set_power self (S754_infinity false) i = write "p inf" i) /\
  (max_current self = S754_infinity false ->
   set_current self (S754_infinity false) i = write "slc inf" i).
Proof.
  split; [| split; [| split]].
  - intros F R. rewrite set_power_run, R.
    pose proof (in_range_finite _ _ F R) as Fv.
    split; [reflexivity |]. split; [apply format_f_fixed_point; auto |].
    intros rest E. apply andb_true_iff in R. destruct R as [L _].
    apply (minus_sign_only_for_negative_zero 3 v rest); auto.
  - intros F R. rewrite set_current_run, R.
    pose proof (in_range_finite _ _ F R) as Fv.
    split; [reflexivity |]. split; [apply format_f_fixed_point; auto |].
    intros rest E. apply andb_true_iff in R. destruct R as [L _].
    apply (minus_sign_only_for_negative_zero 2 v rest); auto.
  - intros E. rewrite set_power_run, E. reflexivity.
  - intros E. rewrite set_current_run, E. reflexivity.
Qed.

(** [m * 2^e * 10^places] rounds to zero when it is below one half. *)
Lemma scaled_below_half (m : positive) (e : Z) (places : nat) :
  (e < 0)%Z -> (2 * (Zpos m * 10 ^ Z.of_nat places) < 2 ^ (- e))%Z ->
  scaled_nearest_even m e places = 0%Z.
Proof.
  intros E H. unfold scaled_nearest_even.
  destruct (0 <=? e)%Z eqn:S; [apply Z.leb_le in S; lia |].
  assert (P : (0 <= Zpos m * 10 ^ Z.of_nat places)%Z)
    by (apply Z.mul_nonneg_nonneg; [lia | apply Z.pow_nonneg; lia]).
  rewrite Z.div_small, Z.mod_small by lia.
  now apply Z.compare_lt_iff in H; rewrite H.
Qed.

(** X10.  Positive values below half a unit of the last place are sent
    as zero: a power under 0.0005 leaves as [p 0.000] and a current under
    0.005 as [slc 0.00], without notice. *)
Theorem tiny_value_is_sent_as_zero
  (self : driver) (m : positive) (e : Z) (i : instrument) :
  (e < 0)%Z ->
  (SFleb (S754_finite false m e) (max_power self) = true ->
   (2000 * Zpos m < 2 ^ (- e))%Z ->
   set_power self (S754_finite false m e) i = write "p 0.000" i) /\
  (SFleb (S754_finite false m e) (max_current self) = true ->
   (200 * Zpos m < 2 ^ (- e))%Z ->
   set_current self (S754_finite false m e) i = write "slc 0.00" i).
Proof.
  intros E. split; intros L H.
  - rewrite set_power_run. unfold in_range. rewrite L.
    cbn [SFleb SFcompare zero andb format_f sign_text].
    rewrite (scaled_below_half m e 3 E) by (simpl; lia). reflexivity.
  - rewrite set_current_run. unfold in_range. rewrite L.
    cbn [SFleb SFcompare zero andb format_f sign_text].
    rewrite (scaled_below_half m e 2 E) by (simpl; lia). reflexivity.
Qed.

Lemma calls_cons (self : driver) (m : method) (ms : list method) (i : instrument) :
  calls self (m :: ms) i =
  match call self m i with
  | (inr v, i1) =>
      match calls self ms i1 with
      | (inr vs, i2) => (inr (v :: vs), i2)
      | (inl e, i2) => (inl e, i2)
      end
  | (inl e, i1) => (inl e, i1)
  end.
Proof.
  cbn [calls]. unfold bind, ret.
  destruct (call self m i) as [[e|v] i1]; [reflexivity |].
  now destruct (calls self ms i1) as [[e|vs] i2].
Qed.

(** X11.  A client that makes [n] calls in a row sends at most [n]
    commands, after the ones that were there; when no call raises it gets
    [n] results; and when all the calls are getters, no write is sent. *)
Theorem calls_send_at_most_one_each (self : driver) (ms : list method) (i : instrument) :
  exists cs,
    sent (snd (calls self ms i)) = (sent i ++ cs)%list /\
    List.length cs <= List.length ms /\
    (forall vs, fst (calls self ms i) = inr vs -> List.length vs = List.length ms) /\
    (forallb is_getter ms = true -> existsb is_write cs = false).
Proof.
  revert i. induction ms as [|m ms IH]; intros i.
  - exists []. cbn [calls]. unfold ret. cbn [fst snd].
    split; [now rewrite app_nil_r |]. split; [simpl; lia |].
    split; [intros vs H; simpl in H; injection H as <-; reflexivity | reflexivity].
  - rewrite calls_cons.
    destruct (call_extends_log self m i) as (c1 & S1 & L1 & G1).
    assert (W1 : is_getter m = true -> existsb is_write c1 = false).
    { intros G. destruct (G1 G) as [W | ->]; [| reflexivity].
      destruct c1 as [|c [|c' c1]]; simpl in *; try lia; try reflexivity.
      destruct (is_write c); [discriminate W | reflexivity]. }
    destruct (call self m i) as [[e|v] i1]; cbn [snd] in S1.
    + exists c1. cbn [fst snd List.length forallb].
      split; [exact S1 |]. split; [lia |]. split; [discriminate |].
      intros G. apply andb_true_iff in G. now apply W1.
    + destruct (IH i1) as (c2 & S2 & L2 & R2 & G2).
      exists (c1 ++ c2)%list.
      assert (S12 : sent (snd (calls self ms i1)) = (sent i ++ c1 ++ c2)%list)
        by (rewrite S2, S1; now rewrite app_assoc).
      assert (G12 : forallb is_getter (m :: ms) = true ->
                    existsb is_write (c1 ++ c2) = false).
      { cbn [forallb]. intros G. apply andb_true_iff in G. destruct G as [Gm Gs].
        now rewrite existsb_app, (W1 Gm), (G2 Gs). }
      destruct (calls self ms i1) as [[e|vs] i2]; cbn [fst snd] in *.
      * split; [exact S12 |]. split; [rewrite List.length_app; simpl; lia |].
        split; [discriminate | exact G12].
      * split; [exact S12 |]. split; [rewrite List.length_app; simpl; lia |].
        split; [| exact G12].
        intros vs' [= <-]. simpl. now rewrite (R2 vs eq_refl).
Qed.

(** ** Reading back what the setters print *)

Lemma digits_value_pos (d : Decimal.uint) (a : positive) :
  digits_value (Npos a) (NilEmpty.string_of_uint d) = Npos (Pos.of_uint_acc d a).
Proof.
  revert a. induction d; intros a;
    cbn [NilEmpty.string_of_uint Pos.of_uint_acc digits_value];
    try reflexivity;
    match goal with
    | |- context [is_digit ?c] =>
        change (is_digit c) with true;
        let v := eval vm_compute in (digit_value c) in
        change (digit_value c) with v
    end;
    rewrite <- IHd; f_equal; lia.
Qed.

Lemma digits_value_uint (d : Decimal.uint) :
  digits_value 0 (NilEmpty.string_of_uint d) = Pos.of_uint d.
Proof.
  induction d;
    cbn [NilEmpty.string_of_uint Pos.of_uint digits_value];
    try reflexivity;
    match goal with
    | |- context [is_digit ?c] =>
        change (is_digit c) with true;
        let v := eval vm_compute in (10 * 0 + digit_value c)%N in
        change (10 * 0 + digit_value c)%N with v
    end;
    first [exact IHd | apply digits_value_pos].
Qed.

(** The digits of [n] read back as [n]. *)
Lemma digits_value_str_of_N (n : N) : digits_value 0 (str_of_N n) = n.
Proof.
  unfold str_of_N, NilZero.string_of_uint.
  rewrite <- (DecimalN.Unsigned.of_to n) at 2. unfold N.of_uint.
  destruct (N.to_uint n); try reflexivity; apply digits_value_uint.
Qed.

Lemma digits_value_app (acc : N) (a b : string) :
  digits_value acc (a ++ b) = digits_value (digits_value acc a) b.
Proof.
  revert acc. induction a as [|c a IH]; intros acc; simpl; [reflexivity |].
  destruct (is_digit c); apply IH.
Qed.

Lemma digits_value_shift (acc : N) (s : string) :
  all_digits s = true ->
  digits_value acc s =
    (acc * 10 ^ N.of_nat (String.length s) + digits_value 0 s)%N.
Proof.
  revert acc. induction s as [|c s IH]; intros acc D.
  - simpl. lia.
  - simpl in D. apply andb_true_iff in D. destruct D as [Dc Ds].
    cbn [digits_value String.length]. rewrite Dc.
    rewrite (IH _ Ds), (IH (10 * 0 + digit_value c)%N Ds).
    rewrite Nat2N.inj_succ, N.pow_succ_r'. lia.
Qed.

Lemma digits_value_zeros (k : nat) (s : string) :
  digits_value 0 (zeros k ++ s) = digits_value 0 s.
Proof. induction k; simpl; auto. Qed.

Lemma digit_is_plain (c : ascii) :
  is_digit c = true ->
  is_underscore c = false /\ is_space c = false /\
  take_sign (String c "") = (false, String c "").
Proof.
  destruct c as [[|] [|] [|] [|] [|] [|] [|] [|]];
    intros H; try discriminate H; repeat split.
Qed.

Lemma take_sign_digit (c : ascii) (r : string) :
  is_digit c = true -> take_sign (String c r) = (false, String c r).
Proof.
  destruct c as [[|] [|] [|] [|] [|] [|] [|] [|]];
    intros H; try discriminate H; reflexivity.
Qed.

Lemma no_underscore_digits (s : string) :
  all_digits s = true -> no_underscore s = true.
Proof.
  induction s as [|c s IH]; simpl; [reflexivity |].
  intros D. apply andb_true_iff in D. destruct D as [Dc Ds].
  destruct (digit_is_plain c Dc) as (-> & _). now rewrite IH.
Qed.

Lemma no_underscore_app (a b : string) :
  no_underscore (a ++ b) = no_underscore a && no_underscore b.
Proof.
  induction a as [|c a IH]; simpl; [reflexivity |].
  now rewrite IH, andb_assoc.
Qed.

Lemma drop_underscores_plain (s : string) (prev : ascii) :
  no_underscore s = true -> is_underscore prev = false ->
  drop_underscores prev s = Some s.
Proof.
  revert prev. induction s as [|c s IH]; intros prev N P; simpl.
  - now rewrite P.
  - simpl in N. apply andb_true_iff in N. destruct N as [Nc Ns].
    apply negb_true_iff in Nc. rewrite Nc, P. simpl.
    now rewrite (IH c Ns Nc).
Qed.

Lemma span_digits (ds rest : string) :
  all_digits ds = true ->
  match rest with String c _ => is_digit c = false | EmptyString => True end ->
  span is_digit (ds ++ rest) = (ds, rest).
Proof.
  intros D R. induction ds as [|c ds IH]; cbn [append span].
  - destruct rest as [|c r]; [reflexivity |]. cbn [span]. now rewrite R.
  - cbn [all_digits] in D. apply andb_true_iff in D. destruct D as [Dc Ds].
    now rewrite Dc, (IH Ds).
Qed.

Lemma append_empty_r (s : string) : s ++ "" = s.
Proof. induction s; simpl; congruence. Qed.

(** [float] reads a fixed-point numeral as the float nearest to it. *)
Lemma numeral_parses (neg : bool) (ip fp : string) :
  ip <> "" -> all_digits ip = true -> all_digits fp = true ->
  py_float (sign_text neg ++ ip ++ "." ++ fp) =
    Some (float_of_decimal neg (digits_value 0 (ip ++ fp))
                           (- Z.of_nat (String.length fp))).
Proof.
  intros N Di Df. unfold py_float.
  assert (U : no_underscore (sign_text neg ++ ip ++ "." ++ fp) = true).
  { rewrite !no_underscore_app, (no_underscore_digits ip Di),
      (no_underscore_digits fp Df). now destruct neg. }
  rewrite (drop_underscores_plain _ Ascii.zero U eq_refl).
  destruct ip as [|c ip]; [congruence |].
  simpl in Di. apply andb_true_iff in Di. destruct Di as [Dc Di].
  destruct (digit_is_plain c Dc) as (_ & Sp & _).
  assert (D : take_decimal (String c ip ++ "." ++ fp) =
              Some (digits_value 0 (String c ip ++ fp),
                    (- Z.of_nat (String.length fp))%Z, "")).
  { unfold take_decimal.
    rewrite (span_digits (String c ip) ("." ++ fp))
      by (first [cbn [all_digits]; now rewrite Dc, Di | reflexivity]).
    cbn [append]. rewrite <- (append_empty_r fp) at 1.
    rewrite (span_digits fp "" Df I).
    cbn [append take_exponent]. now rewrite Z.sub_0_l. }
  destruct neg; cbn [sign_text append].
  - cbn [lstrip is_space]. change (is_space "-") with false. cbv iota.
    unfold take_float. cbn [take_sign]. cbn [append] in D. now rewrite D.
  - cbn [lstrip]. rewrite Sp.
    unfold take_float. rewrite (take_sign_digit c _ Dc).
    cbn [append] in D. now rewrite D.
Qed.

Lemma printed_units_nonneg (places : nat) (x : pyfloat) :
  (0 <= printed_units places x)%Z.
Proof.
  destruct x as [s|s| |s m e]; simpl; try lia.
  unfold scaled_nearest_even.
  assert (P : (0 <= Zpos m * 10 ^ Z.of_nat places)%Z)
    by (apply Z.mul_nonneg_nonneg; [lia | apply Z.pow_nonneg; lia]).
  destruct (0 <=? e)%Z eqn:E.
  - apply Z.leb_le in E. apply Z.mul_nonneg_nonneg; [exact P |].
    apply Z.pow_nonneg; lia.
  - apply Z.leb_gt in E.
    assert (D : (0 < 2 ^ (- e))%Z) by (apply Z.pow_pos_nonneg; lia).
    pose proof (Z.div_pos _ _ P D) as Q.
    destruct (2 * _ ?= _)%Z; try lia. destruct (Z.even _); lia.
Qed.

Lemma fixed_digits_parses (neg : bool) (places : nat) (q : Z) :
  places = 2 \/ places = 3 -> (0 <= q)%Z ->
  py_float (sign_text neg ++ fixed_digits places q) =
    Some (float_of_decimal neg (Z.to_N q) (- Z.of_nat places)).
Proof.
  intros P Q.
  set (unit := (10 ^ Z.of_nat places)%Z).
  assert (U : (0 < unit)%Z) by (apply Z.pow_pos_nonneg; lia).
  set (hi := Z.to_N (q / unit)). set (lo := Z.to_N (q mod unit)).
  assert (B : (0 <= q mod unit < unit)%Z) by (now apply Z.mod_pos_bound).
  assert (L : String.length (str_of_N lo) <= places).
  { destruct P; subst places unit lo; simpl in B;
      apply str_of_N_short; lia. }
  destruct (zero_padded_text places lo L) as [D W].
  assert (E : fixed_digits places q = str_of_N hi ++ "." ++ zero_padded places lo)
    by (destruct P; subst places; reflexivity).
  rewrite E, numeral_parses, W;
    auto using str_of_N_not_empty, all_digits_str_of_N.
  do 2 f_equal.
  rewrite digits_value_app, digits_value_str_of_N.
  rewrite (digits_value_shift hi _ D), W.
  unfold zero_padded. rewrite digits_value_zeros, digits_value_str_of_N.
  subst hi lo. apply N2Z.inj.
  rewrite N2Z.inj_add, N2Z.inj_mul, N2Z.inj_pow, nat_N_Z.
  change (Z.of_N 10) with 10%Z. fold unit.
  rewrite !Z2N.id by (try apply Z.div_pos; lia).
  rewrite (Z.div_mod q unit) at 3 by lia. lia.
Qed.

(** X12.  What the setters print, the getters read: [float] never raises
    on the text of [{x:.2f}] or [{x:.3f}].  It gives back zeros,
    infinities and NaN as they are, and for any other float the double
    nearest to the decimal that was printed. *)
Theorem printed_value_reads_back (places : nat) (x : pyfloat) :
  places = 2 \/ places = 3 ->
  py_float (format_f places x) = Some (read_back places x).
Proof.
  intros P. destruct x as [s|s| |s m e]; cbn [format_f read_back].
  - now rewrite fixed_digits_parses by (auto; lia).
  - destruct s; vm_compute; reflexivity.
  - vm_compute; reflexivity.
  - apply fixed_digits_parses; [exact P |].
    apply (printed_units_nonneg places (S754_finite s m e)).
Qed.

(** X13.  The number printed is the float rounded to the nearest multiple
    of [10^-places], ties to the even one: in units of the last place it
    is off by at most one half, and exact for a float that is a whole
    number. *)
Theorem printed_value_is_nearest (places : nat) (s : bool) (m : positive) (e : Z) :
  let q := printed_units places (S754_finite s m e) in
  let n := (Zpos m * 10 ^ Z.of_nat places)%Z in
  format_f places (S754_finite s m e) = sign_text s ++ fixed_digits places q /\
  ((0 <= e)%Z -> q = (n * 2 ^ e)%Z) /\
  ((e < 0)%Z ->
   (2 * Z.abs (q * 2 ^ (- e) - n) <= 2 ^ (- e))%Z /\
   ((2 * Z.abs (q * 2 ^ (- e) - n) = 2 ^ (- e))%Z -> Z.even q = true)).
Proof.
  cbv zeta. cbn [printed_units]. split; [reflexivity |].
  unfold scaled_nearest_even.
  set (n := (Zpos m * 10 ^ Z.of_nat places)%Z).
  split.
  - intros E. apply Z.leb_le in E. now rewrite E.
  - intros E. assert (E' : (0 <=? e)%Z = false) by (apply Z.leb_gt; lia).
    rewrite E'. set (d := (2 ^ (- e))%Z).
    assert (D : (0 < d)%Z) by (apply Z.pow_pos_nonneg; lia).
    pose proof (Z.div_mod n d ltac:(lia)) as DM.
    pose proof (Z.mod_pos_bound n d D) as B.
    set (q0 := (n / d)%Z) in *. set (r := (n mod d)%Z) in *.
    rewrite (Z.mul_comm d q0) in DM.
    clearbody q0 r d n.
    destruct (Z.compare_spec (2 * r) d) as [C|C|C].
    + destruct (Z.even q0) eqn:Ev.
      * split; [lia | auto].
      * rewrite Z.mul_add_distr_r. split; [lia |]. intros _.
        now rewrite Z.add_1_r, Z.even_succ, <- Z.negb_even, Ev.
    + split; [lia | intros H; exfalso; lia].
    + rewrite Z.mul_add_distr_r.
      split; [lia | intros H; exfalso; lia].
Qed.

(** X14.  The constructor opens the resource named by [address] and
    nothing else decides the connection: two constructions on the same
    address raise the same error or yield the same instrument, with no
    command sent yet, whatever the name, the limits and the wavelength. *)
Theorem construction_depends_on_address_only
  (n n' a : string) (mp mp' mc mc' wl wl' : pyfloat) :
  match init n a mp mc wl, init n' a mp' mc' wl' with
  | inl e, inl e' => e = e'
  | inr (_, i), inr (_, i') => i = i' /\ sent i = []
  | _, _ => False
  end.
Proof.
  unfold init. destruct ResourceManager as [e|mgr]; [reflexivity |].
  destruct (open_resource mgr a crlf) as [e|s]; [reflexivity | now split].
Qed.

End MoreFacts.

(** ** The further properties on the bench *)

Section MoreOnTheBench.

Import PyNum Bench.

Local Existing Instance Bench.transport.

(** On the bench: [set_status(1)] sends [l1]. *)
Lemma set_status_writes_flag_witness :
  sent (snd (set_status laser 1 fresh)) = [Write "l1"].
Proof.
  exact (proj1 (proj2 (set_status_writes_flag laser 1 fresh (or_intror eq_refl)))).
Defined.

(** On the bench: [laser_off()] sends [@cob0] and returns [None]. *)
Lemma action_sends_its_command_witness :
  call laser Laser_off fresh = (inr PNone, Instrument 1 [Write "@cob0"]) /\
  A_laser_off <> A_laser_on_force_autostart.
Proof.
  destruct (action_sends_its_command laser A_laser_off fresh) as [R I].
  split; [exact R |].
  intros E. discriminate E.
Defined.

(** With the cable unplugged, [get_power()] and [clear_fault()] raise the
    timeout of the transport, and an out-of-range [set_power(1.0)] still
    returns. *)
Lemma transport_error_propagates_witness :
  fst (call (T := Unplugged.transport) laser Get_power Unplugged.fresh)
    = inl Unplugged.timeout /\
  fst (call (T := Unplugged.transport) laser Clear_fault Unplugged.fresh)
    = inl Unplugged.timeout /\
  call (T := Unplugged.transport) laser (Set_power f1) Unplugged.fresh
    = (inr PNone, Unplugged.fresh).
Proof.
  pose proof (fun m =>
    transport_error_propagates (T := Unplugged.transport) laser m
      Unplugged.fresh Unplugged.timeout
      (fun _ => eq_refl) (fun _ => eq_refl)) as H.
  split; [| split].
  - destruct (H Get_power) as [E | [G _]]; [exact E | discriminate G].
  - destruct (H Clear_fault) as [E | [_ E]]; [exact E | discriminate E].
  - destruct (H (Set_power f1)) as [E | [_ E]]; [discriminate E | exact E].
Defined.

(** On the bench: [get_status()] adds one command, a query. *)
Lemma call_sends_at_most_one_command_witness :
  exists cs,
    sent (snd (call laser Get_status fresh)) = cs /\
    List.length cs <= 1 /\ forallb is_write cs = false.
Proof.
  destruct (call_sends_at_most_one_command laser Get_status fresh)
    as (cs & S & L & W & _).
  exists cs. split; [exact S |]. split; [exact L |].
  destruct cs as [|c cs]; [discriminate S |].
  simpl. now rewrite (W c (or_introl eq_refl)).
Defined.

(** On the bench: another driver with the same power limit sets the
    power alike, and any driver reads the power alike. *)
Lemma only_limits_are_read_witness :
  call (Driver "spare" "COM1" f125 f0_08 f1) (Set_power f0_03)
    = call laser (Set_power f0_03) /\
  call (Driver "spare" "COM1" f125 f1 f1) Get_power = call laser Get_power.
Proof.
  split.
  - exact (only_limits_are_read (Driver "spare" "COM1" f125 f0_08 f1) laser
             (Set_power f0_03) eq_refl).
  - exact (only_limits_are_read (Driver "spare" "COM1" f125 f1 f1) laser
             Get_power I).
Defined.

(** On the bench, whose laser always reports 1: after [set_status(0)],
    [get_status()] returns 1. *)
Lemma status_is_not_cached_witness :
  set_then_get_status laser 0 fresh =
    (inr 1%Z, Instrument 2 [Write "l0"; Query "l?"]).
Proof.
  exact (status_is_not_cached laser 0 fresh 1 2 "1"
           (or_introl eq_refl) eq_refl eq_refl).
Defined.

(** On the bench the script runs to its end and sends its four
    commands. *)
Lemma main_sends_script_in_order_witness :
  fst main = inr tt /\ snd main = script_commands.
Proof.
  destruct main_sends_script_in_order as (_ & H & _).
  split; [reflexivity | exact (H eq_refl)].
Defined.

(** On the bench: the limit of 0.08 W is itself accepted. *)
Lemma setter_is_live_iff_limit_nonnegative_witness :
  SFleb zero (max_power laser) = true /\
  sent (snd (set_power laser f0_08 fresh)) = [Write "p 0.080"] /\
  sent (snd (set_current laser zero fresh)) = [Write "slc 0.00"].
Proof.
  destruct (setter_is_live_iff_limit_nonnegative laser fresh)
    as (_ & _ & P & C).
  destruct (P eq_refl) as [Hp _]. destruct (C eq_refl) as [_ Hc].
  split; [reflexivity |]. split.
  - change (set_power laser f0_08 fresh)
      with (set_power laser (max_power laser) fresh).
    now rewrite Hp.
  - now rewrite Hc.
Defined.

(** On the bench: 0.03 W is sent as a numeral without sign. *)
Lemma accepted_value_is_sent_as_numeral_witness :
  is_finite (max_power laser) = true /\
  in_range zero (max_power laser) f0_03 = true /\
  fixed_point_text 3 (format_f 3 f0_03) /\
  set_power laser f0_03 fresh = write "p 0.030" fresh.
Proof.
  destruct (accepted_value_is_sent_as_numeral laser f0_03 fresh) as (P & _).
  destruct (P eq_refl eq_refl) as (W & F & _).
  split; [reflexivity |]. split; [reflexivity |].
  split; [exact F | exact W].
Defined.

(** On the bench: 0.0004 W and 0.0004 A leave as zero. *)
Lemma tiny_value_is_sent_as_zero_witness :
  py_float "0.0004" = Some (S754_finite false 0x1a36e2eb1c432d (-64)) /\
  sent (snd (set_power laser (S754_finite false 0x1a36e2eb1c432d (-64)) fresh))
    = [Write "p 0.000"] /\
  sent (snd (set_current laser (S754_finite false 0x1a36e2eb1c432d (-64)) fresh))
    = [Write "slc 0.00"].
Proof.
  destruct (tiny_value_is_sent_as_zero laser 0x1a36e2eb1c432d (-64) fresh eq_refl)
    as [P C].
  split; [reflexivity |]. split.
  - now rewrite (P eq_refl eq_refl).
  - now rewrite (C eq_refl eq_refl).
Defined.

(** On the bench: three calls, of which the last is dropped, send two
    commands. *)
Lemma calls_send_at_most_one_each_witness :
  exists cs,
    sent (snd (calls laser [Set_status 1; Get_status; Set_power f1] fresh)) = cs /\
    List.length cs <= 3.
Proof.
  destruct (calls_send_at_most_one_each laser
              [Set_status 1; Get_status; Set_power f1] fresh)
    as (cs & S & L & _).
  exists cs. split; [exact S | exact L].
Defined.

(** The text [0.030] that [set_power(0.03)] prints reads back as 0.03. *)
Lemma printed_value_reads_back_witness :
  format_f 3 f0_03 = "0.030" /\ py_float "0.030" = Some f0_03.
Proof.
  split; [reflexivity |].
  exact (printed_value_reads_back 3 f0_03 (or_intror eq_refl)).
Defined.

(** The float 0.03 is a little below 3/100 and is printed as 30
    thousandths. *)
Lemma printed_value_is_nearest_witness :
  printed_units 3 f0_03 = 30%Z /\ format_f 3 f0_03 = "0.030".
Proof.
  destruct (printed_value_is_nearest 3 false 0x1eb851eb851eb8 (-58))
    as (F & _ & _).
  split; [reflexivity | exact F].
Defined.

(** On the bench: two constructions on [ASRL3] give the same instrument,
    two on [COM9] the same error. *)
Lemma construction_depends_on_address_only_witness :
  init "a" "ASRL3" f1 f1 f1 = inr (Driver "a" "ASRL3" f1 f1 f1, fresh) /\
  init "b" "COM9" f1 f1 f1 = inl (VisaIOError (-1073807343)).
Proof.
  pose proof (construction_depends_on_address_only
                "a" "laser" "ASRL3" f1 f0_08 f1 f250 f1 f514) as H1.
  pose proof (construction_depends_on_address_only
                "b" "laser" "COM9" f1 f0_08 f1 f250 f1 f514) as H2.
  split; reflexivity.
Defined.

End MoreOnTheBench.
